(** * Automated metadata generation: the text pipeline of [streamlit_app.py]

    A shallow embedding of the metadata generator
    ([preprocess_text], [classify_document_type], [create_metadata_schema],
    [generate_basic_metadata_from_text]) and of the two guarded extractors
    ([extract_pdf_text], [extract_docx_text]), together with the library
    routines they call: [str.split], [str.join], [str.strip], [str.lower],
    slicing, [collections.Counter.most_common], [re.findall] and the value
    mapping of [json.dumps] / [json.loads].

    A Python [str] is a [string]; a character is an [ascii] read as the code
    point 0..255, so the character tables below are the Unicode ones cut to
    the Latin-1 range. *)

From Stdlib Require Import List String Ascii Bool Arith NArith ZArith Lia.
From Stdlib Require Import Permutation.
From Stdlib Require Import Sorted.
From Stdlib Require Import Floats.SpecFloat.
Import ListNotations.
Open Scope string_scope.
Set Warnings "-register-all".

(** ** Characters *)

Module PyChar.

Definition code (c : ascii) : N := N_of_ascii c.

Definition in_range (lo hi : N) (c : ascii) : bool :=
  (N.leb lo (code c) && N.leb (code c) hi)%bool.

(** [str.isspace] on one character, which is also what [str.split()],
    [str.strip()] and the regular expression class [\s] test. *)
Definition isspace (c : ascii) : bool :=
  (in_range 9 13 c || in_range 28 32 c
   || N.eqb (code c) 133 || N.eqb (code c) 160)%bool.

(** The regular expression class [\d]. *)
Definition isdecimal (c : ascii) : bool := in_range 48 57 c.

(** The regular expression ranges [[A-Z]] and [[a-z]]. *)
Definition is_AZ (c : ascii) : bool := in_range 65 90 c.
Definition is_az (c : ascii) : bool := in_range 97 122 c.

(** The regular expression class [\w]: alphanumeric or underscore. *)
Definition isword (c : ascii) : bool :=
  (isdecimal c || is_AZ c || is_az c || N.eqb (code c) 95
   || N.eqb (code c) 170 || N.eqb (code c) 178 || N.eqb (code c) 179
   || N.eqb (code c) 181 || N.eqb (code c) 185 || N.eqb (code c) 186
   || in_range 188 190 c
   || in_range 192 214 c || in_range 216 246 c || in_range 248 255 c)%bool.

(** [str.lower] on one character. *)
Definition lower (c : ascii) : ascii :=
  if (is_AZ c || in_range 192 214 c || in_range 216 222 c)%bool
  then ascii_of_N (code c + 32)
  else c.

End PyChar.

(** ** Strings *)

Module PyStr.

Definition of_rev (cur : list ascii) : string :=
  string_of_list_ascii (rev cur).

(** [len(s)] *)
Definition len (s : string) : nat := String.length s.

(** [not s] for a string: true on the empty string only. *)
Definition is_empty (s : string) : bool :=
  match s with EmptyString => true | String _ _ => false end.

(** [s.lower()] *)
Fixpoint lower (s : string) : string :=
  match s with
  | EmptyString => EmptyString
  | String c s' => String (PyChar.lower c) (lower s')
  end.

(** [s[:n]] *)
Fixpoint take (n : nat) (s : string) : string :=
  match n, s with
  | S n', String c s' => String c (take n' s')
  | _, _ => EmptyString
  end.

Definition flush (cur : list ascii) (rest : list string) : list string :=
  match cur with
  | [] => rest
  | _ :: _ => of_rev cur :: rest
  end.

(** [s.split()]: the scan keeps the characters of the word being read in
    [cur], most recent first, and closes the word at a whitespace
    character or at the end. *)
Fixpoint split_ws_from (cur : list ascii) (s : string) : list string :=
  match s with
  | EmptyString => flush cur []
  | String c s' =>
      if PyChar.isspace c then flush cur (split_ws_from [] s')
      else split_ws_from (c :: cur) s'
  end.

Definition split_ws (s : string) : list string := split_ws_from [] s.

(** [s.split(sep)] for a one-character separator: empty pieces are kept. *)
Fixpoint split_on_from (sep : ascii) (cur : list ascii) (s : string)
  : list string :=
  match s with
  | EmptyString => [of_rev cur]
  | String c s' =>
      if Ascii.eqb c sep then of_rev cur :: split_on_from sep [] s'
      else split_on_from sep (c :: cur) s'
  end.

Definition split_on (sep : ascii) (s : string) : list string :=
  split_on_from sep [] s.

(** [sep.join(parts)] *)
Fixpoint join (sep : string) (parts : list string) : string :=
  match parts with
  | [] => EmptyString
  | [p] => p
  | p :: ps => p ++ sep ++ join sep ps
  end.

Fixpoint lstrip_by (p : ascii -> bool) (s : string) : string :=
  match s with
  | EmptyString => EmptyString
  | String c s' => if p c then lstrip_by p s' else s
  end.

Fixpoint drop_while (p : ascii -> bool) (l : list ascii) : list ascii :=
  match l with
  | [] => []
  | c :: l' => if p c then drop_while p l' else l
  end.

Definition rstrip_by (p : ascii -> bool) (s : string) : string :=
  of_rev (drop_while p (rev (list_ascii_of_string s))).

Definition strip_by (p : ascii -> bool) (s : string) : string :=
  rstrip_by p (lstrip_by p s).

(** [s.strip()] *)
Definition strip (s : string) : string := strip_by PyChar.isspace s.

Fixpoint mem_char (c : ascii) (chars : string) : bool :=
  match chars with
  | EmptyString => false
  | String d chars' => (Ascii.eqb c d || mem_char c chars')%bool
  end.

(** [s.strip(chars)] *)
Definition strip_chars (chars : string) (s : string) : string :=
  strip_by (fun c => mem_char c chars) s.

(** [sub in s] *)
Fixpoint contains (sub s : string) : bool :=
  (String.prefix sub s ||
   match s with
   | EmptyString => false
   | String _ s' => contains sub s'
   end)%bool.

(** [s in l] for a collection of strings. *)
Definition mem (s : string) (l : list string) : bool :=
  existsb (String.eqb s) l.

End PyStr.

(** ** Regular expressions

    The three patterns of the entity scan use literal characters, character
    classes, concatenation, alternation, greedy repetition and the word
    boundary [\b]. [run] is a backtracking matcher in continuation-passing
    style: alternatives are tried left first and a repetition tries one more
    round before it tries to stop, which is the order in which [re] explores
    them, so the first success is the match [re] reports. *)

Module Regex.

Inductive regex : Type :=
| Eps
| Chr (p : ascii -> bool)
| Seq (a b : regex)
| Alt (a b : regex)
| Star (a : regex)
| WordB.

Definition lit (c : ascii) : regex := Chr (Ascii.eqb c).
Definition plus (a : regex) : regex := Seq a (Star a).
Definition opt (a : regex) : regex := Alt a Eps.

(** [cat [a; b; c]] is the pattern [abc]. *)
Fixpoint cat (rs : list regex) : regex :=
  match rs with
  | [] => Eps
  | [a] => a
  | a :: rs' => Seq a (cat rs')
  end.

Fixpoint power (n : nat) (a : regex) : regex :=
  match n with
  | 0 => Eps
  | S n' => Seq a (power n' a)
  end.

Fixpoint upto (n : nat) (a : regex) : regex :=
  match n with
  | 0 => Eps
  | S n' => opt (Seq a (upto n' a))
  end.

(** [counted lo hi a] is the greedy [a{lo,hi}]. *)
Definition counted (lo hi : nat) (a : regex) : regex :=
  Seq (power lo a) (upto (hi - lo) a).

Definition word_opt (c : option ascii) : bool :=
  match c with
  | Some c => PyChar.isword c
  | None => false
  end.

Definition next_char (s : string) : option ascii :=
  match s with
  | EmptyString => None
  | String c _ => Some c
  end.

(** [\b] holds between the previous and the next character when exactly
    one of them is a word character; outside the text counts as none. *)
Definition at_boundary (prev : option ascii) (s : string) : bool :=
  xorb (word_opt prev) (word_opt (next_char s)).

Section Run.
Context {X : Type}.

Definition position_fn : Type := option ascii -> string -> option X.

(** The rounds of a greedy repetition whose body is matched by [body]: one
    more round is tried before stopping. A round that consumes nothing is
    not repeated, so each round shortens the text and [length s] rounds are
    all that can happen from [s]. *)
Fixpoint rounds (body : position_fn -> position_fn) (k : position_fn)
         (n : nat) (prev : option ascii) (s : string) : option X :=
  match n with
  | 0 => k prev s
  | S n' =>
      match
        body (fun prev' s' =>
                if Nat.ltb (String.length s') (String.length s)
                then rounds body k n' prev' s' else None) prev s
      with
      | Some x => Some x
      | None => k prev s
      end
  end.

(** The position is the character before it and the text after it; [k] is
    what remains to be matched after [r]. *)
Fixpoint run (r : regex) (k : position_fn) (prev : option ascii)
         (s : string) : option X :=
  match r with
  | Eps => k prev s
  | Chr p =>
      match s with
      | EmptyString => None
      | String c s' => if p c then k (Some c) s' else None
      end
  | Seq a b => run a (run b k) prev s
  | Alt a b =>
      match run a k prev s with
      | Some x => Some x
      | None => run b k prev s
      end
  | Star a => rounds (run a) k (String.length s) prev s
  | WordB => if at_boundary prev s then k prev s else None
  end.
End Run.

(** The text left after the match of [r] that starts here, if any. *)
Definition match_at (r : regex) (prev : option ascii) (s : string)
  : option string :=
  run r (fun _ rest => Some rest) prev s.

(** [re.findall(r, text)] for a pattern without groups: the matches from
    left to right, the scan resuming where a match ended. [skip] counts the
    characters of the last match that are still to be passed. *)
Fixpoint scan (r : regex) (skip : nat) (prev : option ascii) (s : string)
  : list string :=
  match s with
  | EmptyString =>
      match skip, match_at r prev s with
      | 0, Some _ => [EmptyString]
      | _, _ => []
      end
  | String c s' =>
      match skip with
      | S skip' => scan r skip' (Some c) s'
      | 0 =>
          match match_at r prev s with
          | Some rest =>
              let n := String.length s - String.length rest in
              PyStr.take n s :: scan r (n - 1) (Some c) s'
          | None => scan r 0 (Some c) s'
          end
      end
  end.

Definition findall (r : regex) (text : string) : list string :=
  scan r 0 None text.

Definition digit : regex := Chr PyChar.isdecimal.

(** [\b[A-Z][a-z]+(?:\s+[A-Z][a-z]+)*\b] *)
Definition capitalized_word : regex :=
  cat [Chr PyChar.is_AZ; plus (Chr PyChar.is_az)].
Definition capitalized_pattern : regex :=
  cat [WordB; capitalized_word;
       Star (cat [plus (Chr PyChar.isspace); capitalized_word]); WordB].

(** [\b\d{1,2}[/-]\d{1,2}[/-]\d{2,4}\b|\b\d{4}\b] *)
Definition slash_or_dash : regex :=
  Chr (fun c => (Ascii.eqb c "/" || Ascii.eqb c "-")%bool).
Definition date_pattern : regex :=
  Alt (cat [WordB; counted 1 2 digit; slash_or_dash; counted 1 2 digit;
            slash_or_dash; counted 2 4 digit; WordB])
      (cat [WordB; counted 4 4 digit; WordB]).

(** [\b\d+(?:\.\d+)?%\b] *)
Definition percent_pattern : regex :=
  cat [WordB; plus digit; opt (cat [lit "."; plus digit]); lit "%"; WordB].

End Regex.

(** ** Python values

    The metadata record is a [dict] of [dict]s built by item assignment, so
    it is modelled as a dynamically typed value. A [dict] is its items in
    insertion order; every key of this program is a [str]. A [float] is an
    IEEE 754 binary64 value. *)

Module Py.

Definition float : Type := spec_float.

Inductive pyval : Type :=
| PNone
| PBool (b : bool)
| PInt (z : Z)
| PFloat (f : float)
| PStr (s : string)
| PList (items : list pyval)
| PTuple (items : list pyval)
| PSet (items : list pyval)
| PDict (items : list (string * pyval)).

Definition dict : Type := list (string * pyval).

(** The literals [0.8] and [0.1]: [0x1.999999999999ap-1] and
    [0x1.999999999999ap-4]. *)
Definition float_0_8 : float := S754_finite false 7205759403792794 (-53).
Definition float_0_1 : float := S754_finite false 7205759403792794 (-56).

Definition str_list (l : list string) : pyval := PList (map PStr l).

(** [d[k]], with [None] for [KeyError]. *)
Fixpoint getitem (d : dict) (k : string) : option pyval :=
  match d with
  | [] => None
  | (k', v) :: d' => if String.eqb k' k then Some v else getitem d' k
  end.

(** [d[k] = v]: an existing key keeps its place, a new one goes last. *)
Fixpoint setitem (d : dict) (k : string) (v : pyval) : dict :=
  match d with
  | [] => [(k, v)]
  | (k', v') :: d' =>
      if String.eqb k' k then (k', v) :: d' else (k', v') :: setitem d' k v
  end.

Definition keys (d : dict) : list string := map fst d.

(** ** Exceptions and the session

    Every exception of the model is an instance of [Exception]; its class
    decides which [except] clause takes it and [exn_str] is [str(e)]. *)

Inductive exn_class : Type :=
| ImportError | KeyError | TypeError | OtherException.

Record exn : Type := { exn_cls : exn_class; exn_str : string }.

Inductive result (A : Type) : Type :=
| Ok (a : A)
| Raise (e : exn).
Arguments Ok {A} a.
Arguments Raise {A} e.

(** What the page shows through [st.warning] and [st.error], and the one
    attribute of [st.session_state] the program uses. *)
Inductive ui_message : Type :=
| Warning (msg : string)
| Error (msg : string).

Record session : Type := {
  textstat_warning_shown : bool;
  shown : list ui_message
}.

Definition M (A : Type) : Type := session -> result A * session.

Definition ret {A} (a : A) : M A := fun s => (Ok a, s).

Definition bind {A B} (m : M A) (f : A -> M B) : M B :=
  fun s =>
    match m s with
    | (Ok a, s') => f a s'
    | (Raise e, s') => (Raise e, s')
    end.

Definition raise {A} (e : exn) : M A := fun s => (Raise e, s).

Definition lift {A} (r : result A) : M A := fun s => (r, s).

(** [try: body except ...: handler]; what the body did to the session
    before it raised stays done. *)
Definition try_except {A} (body : M A) (handler : exn -> M A) : M A :=
  fun s =>
    match body s with
    | (Ok a, s') => (Ok a, s')
    | (Raise e, s') => handler e s'
    end.

Definition st_warning (msg : string) : M unit :=
  fun s => (Ok tt, {| textstat_warning_shown := textstat_warning_shown s;
                      shown := shown s ++ [Warning msg] |}).

Definition st_error (msg : string) : M unit :=
  fun s => (Ok tt, {| textstat_warning_shown := textstat_warning_shown s;
                      shown := shown s ++ [Error msg] |}).

Definition has_textstat_warning_shown : M bool :=
  fun s => (Ok (textstat_warning_shown s), s).

Definition set_textstat_warning_shown : M unit :=
  fun s => (Ok tt, {| textstat_warning_shown := true; shown := shown s |}).

(** [import m] for an optional module. *)
Definition import {A} (name : string) (m : option A) : M A :=
  match m with
  | Some a => ret a
  | None =>
      raise {| exn_cls := ImportError;
               exn_str := "No module named '" ++ name ++ "'" |}
  end.

(** [m[g][f] = v] on a [dict] of [dict]s. *)
Definition set_field (m : pyval) (g f : string) (v : pyval) : M pyval :=
  match m with
  | PDict groups =>
      match getitem groups g with
      | Some (PDict fields) =>
          ret (PDict (setitem groups g (PDict (setitem fields f v))))
      | Some _ =>
          raise {| exn_cls := TypeError;
                   exn_str := "object does not support item assignment" |}
      | None => raise {| exn_cls := KeyError; exn_str := "'" ++ g ++ "'" |}
      end
  | _ =>
      raise {| exn_cls := TypeError;
               exn_str := "object is not subscriptable" |}
  end.

(** [m[g][f]], with [None] when a key is missing. *)
Definition get_field (m : pyval) (g f : string) : option pyval :=
  match m with
  | PDict groups =>
      match getitem groups g with
      | Some (PDict fields) => getitem fields f
      | _ => None
      end
  | _ => None
  end.

(** A [for] loop whose body may raise, threading the loop variable. *)
Fixpoint for_each {A B} (xs : list A) (acc : B) (body : B -> A -> M B)
  : M B :=
  match xs with
  | [] => ret acc
  | x :: xs' => bind (body acc x) (fun acc' => for_each xs' acc' body)
  end.

End Py.

Declare Scope py_scope.
Delimit Scope py_scope with py.
Notation "x <- m ;; k" := (Py.bind m (fun x => k))
  (at level 61, m at next level, right associativity) : py_scope.
Notation "m ;;; k" := (Py.bind m (fun _ => k))
  (at level 61, right associativity) : py_scope.

(** ** [collections.Counter] *)

Module Collections.

Definition counter : Type := list (string * nat).

(** One more occurrence of [w]; a new word goes last, as in a [dict]. *)
Fixpoint count_one (c : counter) (w : string) : counter :=
  match c with
  | [] => [(w, 1)]
  | (k, n) :: c' =>
      if String.eqb k w then (k, S n) :: c' else (k, n) :: count_one c' w
  end.

(** [Counter(words)] *)
Definition Counter (words : list string) : counter :=
  fold_left count_one words [].

(** [x] comes before everything already placed, so it goes in front of
    the first entry that does not beat it: equal counts keep their order. *)
Fixpoint place (x : string * nat) (sorted : counter) : counter :=
  match sorted with
  | [] => [x]
  | y :: sorted' =>
      if Nat.leb (snd y) (snd x) then x :: sorted else y :: place x sorted'
  end.

(** [sorted(c.items(), key=count, reverse=True)] *)
Definition by_count (c : counter) : counter := fold_right place [] c.

(** [c.most_common(n)] *)
Definition most_common (n : nat) (c : counter) : counter :=
  firstn n (by_count c).

End Collections.

(** ** The value mapping of [json.dumps] and [json.loads]

    [dumps] gives the JSON document a value is written as, or nothing
    where [json.dumps] raises [TypeError]; [loads] gives the value a document
    is read as. A [tuple] is written as an array and read back as a [list];
    a [set] is refused; an [int] and a [float] are written as different
    numbers and read back as what they were. *)

Module Json.
Import Py.

Inductive json : Type :=
| JNull
| JBool (b : bool)
| JInt (z : Z)
| JFloat (f : float)
| JString (s : string)
| JArray (items : list json)
| JObject (members : list (string * json)).

Fixpoint dumps (v : pyval) : option json :=
  match v with
  | PNone => Some JNull
  | PBool b => Some (JBool b)
  | PInt z => Some (JInt z)
  | PFloat f => Some (JFloat f)
  | PStr s => Some (JString s)
  | PList items | PTuple items =>
      option_map JArray
        ((fix each (l : list pyval) : option (list json) :=
            match l with
            | [] => Some []
            | x :: l' =>
                match dumps x, each l' with
                | Some j, Some js => Some (j :: js)
                | _, _ => None
                end
            end) items)
  | PSet _ => None
  | PDict items =>
      option_map JObject
        ((fix each (l : list (string * pyval))
            : option (list (string * json)) :=
            match l with
            | [] => Some []
            | (k, x) :: l' =>
                match dumps x, each l' with
                | Some j, Some js => Some ((k, j) :: js)
                | _, _ => None
                end
            end) items)
  end.

(** An object is read member by member into a [dict], so a repeated name
    keeps its first place and its last value. *)
Fixpoint loads (j : json) : pyval :=
  match j with
  | JNull => PNone
  | JBool b => PBool b
  | JInt z => PInt z
  | JFloat f => PFloat f
  | JString s => PStr s
  | JArray items => PList (map loads items)
  | JObject members =>
      PDict (fold_left (fun d m => setitem d (fst m) (loads (snd m)))
                       members [])
  end.

(** [json.loads(json.dumps(v))] *)
Definition roundtrip (v : pyval) : option pyval :=
  option_map loads (dumps v).

End Json.

(** ** The application *)

Module App.
Import Py.
Local Open Scope py_scope.

(** A document library opens a file and gives its pages or paragraphs;
    opening may raise, and so may reading the text of each one. *)
Definition document_reader : Type :=
  string -> result (list (result string)).

(** What the program takes from outside: the optional modules ([None] when
    one is not installed), [Path(filename).suffix], the clock, and the
    order in which a [set] of strings is iterated, about which only what
    every [set] guarantees is known. *)
Record env : Type := {
  PyPDF2 : option document_reader;
  docx : option document_reader;
  textstat : option (string -> result float);
  path_suffix : string -> string;
  strftime : string;
  elapsed : float;
  list_of_set : list string -> list string;
  list_of_set_NoDup : forall xs, NoDup (list_of_set xs);
  list_of_set_In : forall xs x, In x (list_of_set xs) <-> In x xs
}.

(** The loop [for part in parts: text += part_text + "\n"]. *)
Definition concat_lines (parts : list (result string)) : M string :=
  for_each parts ""
    (fun text part => t <- lift part ;; ret (text ++ t ++ String "010" "")).

(** The two extractors: the [try] suite imports the library, opens the
    file and joins the texts, and the two [except] clauses turn a missing
    library and any other failure into a diagnostic. The warning sign
    that opens some messages lies outside the modelled character range and
    is left out of them. *)
Definition extract_pdf_text (E : env) (file_path : string) : M string :=
  try_except
    (reader <- import "PyPDF2" (PyPDF2 E) ;;
     pages <- lift (reader file_path) ;;
     text <- concat_lines pages ;;
     ret (PyStr.strip text))
    (fun e =>
       match exn_cls e with
       | ImportError =>
           st_warning
             "PDF extraction requires PyPDF2. Install with: pip install PyPDF2" ;;;
           ret "[PDF extraction requires PyPDF2 library - install with: pip install PyPDF2]"
       | _ =>
           st_error ("PDF extraction failed: " ++ exn_str e) ;;;
           ret ("[PDF extraction failed: " ++ exn_str e ++ "]")
       end).

Definition extract_docx_text (E : env) (file_path : string) : M string :=
  try_except
    (Document <- import "docx" (docx E) ;;
     paragraphs <- lift (Document file_path) ;;
     text <- concat_lines paragraphs ;;
     ret (PyStr.strip text))
    (fun e =>
       match exn_cls e with
       | ImportError =>
           st_warning
             "DOCX extraction requires python-docx. Install with: pip install python-docx" ;;;
           ret "[DOCX extraction requires python-docx library - install with: pip install python-docx]"
       | _ =>
           st_error ("DOCX extraction failed: " ++ exn_str e) ;;;
           ret ("[DOCX extraction failed: " ++ exn_str e ++ "]")
       end).

Definition preprocess_text (text : string) : string :=
  if PyStr.is_empty text then ""
  else PyStr.join " " (PyStr.split_ws text).

(** [any(word in text_lower for word in lexicon)] *)
Definition any_in (lexicon : list string) (text_lower : string) : bool :=
  existsb (fun word => PyStr.contains word text_lower) lexicon.

Definition classify_document_type (text : string) : string :=
  if PyStr.is_empty text then "Unknown"
  else
    let text_lower := PyStr.lower text in
    if any_in ["abstract"; "introduction"; "methodology"; "conclusion";
               "references"] text_lower
    then "Academic Paper"
    else if any_in ["executive summary"; "business"; "market"; "strategy"]
                   text_lower
    then "Business Document"
    else if any_in ["chapter"; "novel"; "story"] text_lower
    then "Literary Work"
    else if Nat.ltb (List.length (PyStr.split_ws text)) 100
    then "Short Document"
    else "General Document".

Definition create_metadata_schema : pyval :=
  PDict
    [("basic_info",
      PDict [("filename", PStr ""); ("file_type", PStr "");
             ("file_size", PInt 0); ("creation_date", PStr "");
             ("processing_date", PStr "")]);
     ("content_analysis",
      PDict [("word_count", PInt 0); ("character_count", PInt 0);
             ("document_type", PStr ""); ("readability_score", PInt 0)]);
     ("semantic_data",
      PDict [("summary", PStr ""); ("key_topics", PList []);
             ("entities", PDict [])]);
     ("technical_metadata",
      PDict [("extraction_method", PStr ""); ("processing_time", PInt 0);
             ("confidence_score", PInt 0)])].

Definition stop_words : list string :=
  ["the"; "and"; "are"; "for"; "with"; "this"; "that"; "from"; "they";
   "have"; "been"; "will"; "said"; "each"; "which"; "their"; "time"; "but";
   "all"; "can"; "may"; "was"; "were"; "not"; "you"; "your"].

(** The characters stripped from a word: full stop, comma, exclamation
    and question mark, semicolon, colon, double quote (code 34), round and
    square brackets. *)
Definition punctuation : string :=
  ".,!?;:" ++ String (ascii_of_nat 34) "()[]".

(** The block under [# Simple summary]. *)
Definition sentences_of (text : string) : list string :=
  map PyStr.strip
      (filter (fun s => negb (PyStr.is_empty (PyStr.strip s)))
              (PyStr.split_on "." text)).

Definition summary_of (text : string) : string :=
  if PyStr.is_empty text then "No text content extracted"
  else
    let sentences := sentences_of text in
    let summary_text :=
      match sentences with
      | [] => PyStr.take 200 text
      | _ :: _ => PyStr.join ". " (firstn 2 sentences) ++ "."
      end in
    if Nat.ltb 200 (PyStr.len summary_text) then summary_text ++ "..."
    else summary_text.

(** The block under [# Basic topics]. *)
Definition words_clean_of (words : list string) : list string :=
  map (fun word => PyStr.strip_chars punctuation (PyStr.lower word))
      (filter (fun word =>
                 (Nat.ltb 3 (PyStr.len word)
                  && negb (PyStr.mem (PyStr.lower word) stop_words))%bool)
              words).

Definition key_topics_of (text : string) (words : list string)
  : list string :=
  if PyStr.is_empty text then []
  else
    let word_freq := Collections.Counter (words_clean_of words) in
    map fst (Collections.most_common 5 word_freq).

(** The block under [# Basic entities]. *)
Definition entities_of (E : env) (text : string) : dict :=
  let entities :=
    [("PERSON", PList []); ("ORG", PList []); ("DATE", PList []);
     ("PERCENT", PList [])] in
  if PyStr.is_empty text then entities
  else
    let capitalized := Regex.findall Regex.capitalized_pattern text in
    let entities :=
      setitem entities "PERSON"
              (str_list (firstn 5 (list_of_set E capitalized))) in
    let dates := Regex.findall Regex.date_pattern text in
    let entities :=
      setitem entities "DATE" (str_list (firstn 3 (list_of_set E dates))) in
    let percentages := Regex.findall Regex.percent_pattern text in
    setitem entities "PERCENT" (str_list (list_of_set E percentages)).

(** The block under [# Try to calculate readability score]. *)
Definition readability_block (E : env) (metadata : pyval) (text : string)
  : M pyval :=
  try_except
    (flesch_reading_ease <- import "textstat" (textstat E) ;;
     if (negb (PyStr.is_empty text)
         && Nat.ltb 0 (PyStr.len (PyStr.strip text)))%bool
     then
       score <- lift (flesch_reading_ease text) ;;
       set_field metadata "content_analysis" "readability_score"
                 (PFloat score)
     else
       set_field metadata "content_analysis" "readability_score" (PInt 0))
    (fun e =>
       match exn_cls e with
       | ImportError =>
           metadata <- set_field metadata "content_analysis"
                                 "readability_score" (PInt 0) ;;
           warned <- has_textstat_warning_shown ;;
           (if warned then ret tt
            else
              st_warning
                "For readability scores, install textstat: pip install textstat" ;;;
              set_textstat_warning_shown) ;;;
           ret metadata
       | _ =>
           set_field metadata "content_analysis" "readability_score"
                     (PInt 0)
       end).

Definition generate_basic_metadata_from_text
           (E : env) (text filename : string) : M pyval :=
  let metadata := create_metadata_schema in
  metadata <- set_field metadata "basic_info" "filename" (PStr filename) ;;
  metadata <- set_field metadata "basic_info" "file_type"
                        (PStr (path_suffix E filename)) ;;
  metadata <- set_field metadata "basic_info" "processing_date"
                        (PStr (strftime E)) ;;
  let text := if PyStr.is_empty text then "" else preprocess_text text in
  let words := if PyStr.is_empty text then [] else PyStr.split_ws text in
  metadata <- set_field metadata "content_analysis" "word_count"
                        (PInt (Z.of_nat (List.length words))) ;;
  metadata <- set_field metadata "content_analysis" "character_count"
                        (PInt (Z.of_nat (PyStr.len text))) ;;
  metadata <- set_field metadata "content_analysis" "document_type"
                        (PStr (classify_document_type text)) ;;
  metadata <- readability_block E metadata text ;;
  metadata <- set_field metadata "semantic_data" "summary"
                        (PStr (summary_of text)) ;;
  metadata <- set_field metadata "semantic_data" "key_topics"
                        (str_list (key_topics_of text words)) ;;
  metadata <- set_field metadata "semantic_data" "entities"
                        (PDict (entities_of E text)) ;;
  metadata <- set_field metadata "technical_metadata" "extraction_method"
                        (PStr "Streamlit interface") ;;
  metadata <- set_field metadata "technical_metadata" "processing_time"
                        (PFloat (elapsed E)) ;;
  metadata <- set_field metadata "technical_metadata" "confidence_score"
                        (PFloat (if PyStr.is_empty text then float_0_1
                                 else float_0_8)) ;;
  ret metadata.

(** The record a call returns from a fresh session, if it returns one. *)
Definition fresh_session : session :=
  {| textstat_warning_shown := false; shown := [] |}.

Definition returned {A} (m : M A) (s : session) : option A :=
  match fst (m s) with
  | Ok a => Some a
  | Raise _ => None
  end.

(** An environment to run examples in: no optional module installed, and
    a [set] iterated in the order [nodup] leaves. *)
Definition bare_suffix (filename : string) : string := "".

Definition bare_env : env :=
  {| PyPDF2 := None;
     docx := None;
     textstat := None;
     path_suffix := bare_suffix;
     strftime := "2024-01-01 00:00:00";
     elapsed := S754_zero false;
     list_of_set := nodup string_dec;
     list_of_set_NoDup := fun xs => NoDup_nodup string_dec xs;
     list_of_set_In := fun xs x => nodup_In string_dec xs x |}.

(** *** Reading a record *)

(** The text the record is computed from, and its words. *)
Definition clean (text : string) : string :=
  if PyStr.is_empty text then "" else preprocess_text text.

Definition words_of (text : string) : list string :=
  if PyStr.is_empty text then [] else PyStr.split_ws text.

(** [metadata['semantic_data']['entities'][label]] as a list of strings. *)
Definition entity_list (metadata : pyval) (label : string)
  : option pyval :=
  match get_field metadata "semantic_data" "entities" with
  | Some (PDict entities) => getitem entities label
  | _ => None
  end.

(** The groups of a record with the names of their fields, in order. *)
Definition group_fields (group : string * pyval)
  : option (string * list string) :=
  match snd group with
  | PDict fields => Some (fst group, keys fields)
  | _ => None
  end.

Fixpoint all_some {A} (l : list (option A)) : option (list A) :=
  match l with
  | [] => Some []
  | Some a :: l' => option_map (cons a) (all_some l')
  | None :: _ => None
  end.

Definition shape (metadata : pyval)
  : option (list (string * list string)) :=
  match metadata with
  | PDict groups => all_some (map group_fields groups)
  | _ => None
  end.

Definition starts_with_bracket (s : string) : bool :=
  match s with
  | String c _ => Ascii.eqb c "["
  | EmptyString => false
  end.

(** The texts of the pages or paragraphs, when reading none of them
    raises, and the text the loop of an extractor builds from them. *)
Fixpoint texts_of (parts : list (result string)) : option (list string) :=
  match parts with
  | [] => Some []
  | Ok t :: parts' => option_map (cons t) (texts_of parts')
  | Raise _ :: _ => None
  end.

Fixpoint lines (texts : list string) : string :=
  match texts with
  | [] => ""
  | t :: texts' => t ++ String "010" "" ++ lines texts'
  end.

(** What an extractor returns, by what the library does. *)
Definition extractor_result (library : option document_reader)
           (file_path text : string) : Prop :=
  match library with
  | None => starts_with_bracket text = true
  | Some reader =>
      match reader file_path with
      | Raise _ => starts_with_bracket text = true
      | Ok parts =>
          match texts_of parts with
          | Some texts => text = PyStr.strip (lines texts)
          | None => starts_with_bracket text = true
          end
      end
  end.

(** *** Sample texts *)

(** One sentence of 201 letters, without a full stop. *)
Definition long_sentence : string :=
  string_of_list_ascii (repeat "a"%char 201).

(** [n] percentages of decreasing length, each followed by a letter and a
    comma: for 3, the text [111%a,11%a,1%a,]. *)
Fixpoint ones (k : nat) : string :=
  match k with
  | 0 => ""
  | S k' => String "1" (ones k')
  end.

Fixpoint percent_run (n : nat) : string :=
  match n with
  | 0 => ""
  | S n' => ones n ++ "%a," ++ percent_run n'
  end.

Fixpoint percent_tokens (n : nat) : list string :=
  match n with
  | 0 => []
  | S n' => (ones n ++ "%") :: percent_tokens n'
  end.

(** A text without whitespace. *)
Fixpoint solid (s : string) : bool :=
  match s with
  | EmptyString => true
  | String c s' => (negb (PyChar.isspace c) && solid s')%bool
  end.

(** The character before the position reached after [passed]. *)
Fixpoint last_of (prev : option ascii) (passed : string) : option ascii :=
  match passed with
  | EmptyString => prev
  | String c passed' => last_of (Some c) passed'
  end.

(** Whether some percent sign of the text is directly followed by a word
    character. *)
Fixpoint percent_before_word (s : string) : bool :=
  match s with
  | EmptyString => false
  | String c s' =>
      ((Ascii.eqb c "%" && Regex.word_opt (Regex.next_char s'))
       || percent_before_word s')%bool
  end.

(** A sentence of the built-in business sample. *)
Definition sample_sentence : string :=
  "Our revenue increased by 15% compared to the previous quarter, driven by strong sales in the technology sector.".

(** The schema with every assigned field filled in. *)
Definition filled_schema
           (filename file_type processing_date : string)
           (word_count character_count : Z) (document_type : string)
           (readability_score : pyval) (summary : string)
           (key_topics : list string) (entities : dict)
           (processing_time confidence_score : float) : pyval :=
  PDict
    [("basic_info",
      PDict [("filename", PStr filename); ("file_type", PStr file_type);
             ("file_size", PInt 0); ("creation_date", PStr "");
             ("processing_date", PStr processing_date)]);
     ("content_analysis",
      PDict [("word_count", PInt word_count);
             ("character_count", PInt character_count);
             ("document_type", PStr document_type);
             ("readability_score", readability_score)]);
     ("semantic_data",
      PDict [("summary", PStr summary); ("key_topics", str_list key_topics);
             ("entities", PDict entities)]);
     ("technical_metadata",
      PDict [("extraction_method", PStr "Streamlit interface");
             ("processing_time", PFloat processing_time);
             ("confidence_score", PFloat confidence_score)])].

(** The score the readability block leaves in the record. *)
Definition readability_of (E : env) (text : string) : pyval :=
  match textstat E with
  | None => PInt 0
  | Some flesch_reading_ease =>
      if (negb (PyStr.is_empty text)
          && Nat.ltb 0 (PyStr.len (PyStr.strip text)))%bool
      then
        match flesch_reading_ease text with
        | Ok score => PFloat score
        | Raise _ => PInt 0
        end
      else PInt 0
  end.

End App.

(** ** Values that JSON keeps *)

Module Native.
Import Py.

Fixpoint distinct (names : list string) : bool :=
  match names with
  | [] => true
  | k :: names' => (negb (PyStr.mem k names') && distinct names')%bool
  end.

(** No [tuple] and no [set] anywhere, and no name twice in a [dict]. *)
Fixpoint json_native (v : pyval) : bool :=
  match v with
  | PNone | PBool _ | PInt _ | PFloat _ | PStr _ => true
  | PList items => forallb json_native items
  | PTuple _ | PSet _ => false
  | PDict items =>
      (distinct (map fst items)
       && forallb (fun item => json_native (snd item)) items)%bool
  end.

(** Induction on a value together with the values it holds. *)
Section Induction.
Variable P : pyval -> Prop.
Hypothesis P_none : P PNone.
Hypothesis P_bool : forall b, P (PBool b).
Hypothesis P_int : forall z, P (PInt z).
Hypothesis P_float : forall f, P (PFloat f).
Hypothesis P_str : forall s, P (PStr s).
Hypothesis P_list : forall items, Forall P items -> P (PList items).
Hypothesis P_tuple : forall items, Forall P items -> P (PTuple items).
Hypothesis P_set : forall items, Forall P items -> P (PSet items).
Hypothesis P_dict :
  forall items, Forall (fun item => P (snd item)) items ->
                P (PDict items).

Fixpoint pyval_nested_ind (v : pyval) : P v :=
  let each :=
    fix each (l : list pyval) : Forall P l :=
      match l with
      | [] => Forall_nil P
      | x :: l' => Forall_cons x (pyval_nested_ind x) (each l')
      end in
  match v with
  | PNone => P_none
  | PBool b => P_bool b
  | PInt z => P_int z
  | PFloat f => P_float f
  | PStr s => P_str s
  | PList items => P_list items (each items)
  | PTuple items => P_tuple items (each items)
  | PSet items => P_set items (each items)
  | PDict items =>
      P_dict items
        ((fix each_item (l : list (string * pyval))
            : Forall (fun item => P (snd item)) l :=
            match l with
            | [] => Forall_nil _
            | x :: l' =>
                Forall_cons x (pyval_nested_ind (snd x)) (each_item l')
            end) items)
  end.
End Induction.

End Native.

(** ** Shapes of text used to state what the preprocessing does *)

Module Text.

(** Only whitespace, or nothing at all. *)
Fixpoint blank (s : string) : bool :=
  match s with
  | EmptyString => true
  | String c s' => (PyChar.isspace c && blank s')%bool
  end.

(** The text starts with a character that is not whitespace. *)
Definition head_solid (s : string) : bool :=
  match s with
  | EmptyString => false
  | String c _ => negb (PyChar.isspace c)
  end.

(** Every whitespace character is a plain space with a character that is
    not whitespace right after it. *)
Fixpoint single_spaced (s : string) : bool :=
  match s with
  | EmptyString => true
  | String c s' =>
      ((if PyChar.isspace c then (Ascii.eqb c " " && head_solid s')%bool
        else true)
       && single_spaced s')%bool
  end.

(** Words separated by one space each, with nothing before or after. *)
Definition well_spaced (s : string) : bool :=
  (PyStr.is_empty s || (head_solid s && single_spaced s))%bool.

(** A word: not empty and without whitespace. *)
Definition a_word (w : string) : Prop := w <> "" /\ App.solid w = true.

(** How often a word occurs in a list of words. *)
Definition frequency (ws : list string) (w : string) : nat :=
  count_occ string_dec ws w.

(** The count a counter holds for a word, 0 when it holds none. *)
Fixpoint tally (c : Collections.counter) (w : string) : nat :=
  match c with
  | [] => 0
  | (k, n) :: c' => if String.eqb k w then n else tally c' w
  end.

(** Where a word occurs first in a list of words. *)
Fixpoint first_index (ws : list string) (w : string) : nat :=
  match ws with
  | [] => 0
  | x :: ws' => if String.eqb x w then 0 else S (first_index ws' w)
  end.

(** One word is more frequent than the other, or as frequent and seen
    first. *)
Definition ranks_before (ws : list string) (a b : string) : Prop :=
  frequency ws b < frequency ws a
  \/ (frequency ws a = frequency ws b
      /\ first_index ws a < first_index ws b).

(** The same on the entries of a counter, for an order [Q] among entries
    of equal count. *)
Definition entry_before (Q : string * nat -> string * nat -> Prop)
           (a b : string * nat) : Prop :=
  snd b < snd a \/ (snd a = snd b /\ Q a b).

(** One entry is at least as frequent as the other. *)
Definition outranks (a b : string * nat) : Prop := snd b <= snd a.

(** The cleaned words the key topics are chosen from. *)
Definition cleaned_words (text : string) : list string :=
  App.words_clean_of (PyStr.split_ws text).

(** Every character class of the pattern lies within [q]. *)
Fixpoint within (q : ascii -> bool) (r : Regex.regex) : Prop :=
  match r with
  | Regex.Eps | Regex.WordB => True
  | Regex.Chr p => forall c, p c = true -> q c = true
  | Regex.Seq a b | Regex.Alt a b => within q a /\ within q b
  | Regex.Star a => within q a
  end.

(** The pattern cannot match without first passing a character of [q]. *)
Fixpoint opens_with (q : ascii -> bool) (r : Regex.regex) : Prop :=
  match r with
  | Regex.Chr p => forall c, p c = true -> q c = true
  | Regex.Seq Regex.WordB b => opens_with q b
  | Regex.Seq a _ => opens_with q a
  | Regex.Alt a b => opens_with q a /\ opens_with q b
  | _ => False
  end.

(** Every character of the text is in [q]. *)
Fixpoint all_chars (q : ascii -> bool) (s : string) : bool :=
  match s with
  | EmptyString => true
  | String c s' => (q c && all_chars q s')%bool
  end.

(** The text starts with a character of [q]. *)
Definition first_char (q : ascii -> bool) (s : string) : bool :=
  match s with
  | EmptyString => false
  | String c _ => q c
  end.

Definition letter_or_space (c : ascii) : bool :=
  (PyChar.is_AZ c || PyChar.is_az c || PyChar.isspace c)%bool.

Definition date_char (c : ascii) : bool :=
  (PyChar.isdecimal c || Ascii.eqb c "/" || Ascii.eqb c "-")%bool.

Definition percent_char (c : ascii) : bool :=
  (PyChar.isdecimal c || Ascii.eqb c "." || Ascii.eqb c "%")%bool.

(** The session with the textstat warning shown and the flag set. *)
Definition textstat_warning : Py.ui_message :=
  Py.Warning "For readability scores, install textstat: pip install textstat".

Definition warned (s : Py.session) : Py.session :=
  {| Py.textstat_warning_shown := true;
     Py.shown := (Py.shown s ++ [textstat_warning])%list |}.

(** Whether the library gives the texts of all pages or paragraphs. *)
Definition extraction_succeeds (library : option App.document_reader)
           (file_path : string) : bool :=
  match library with
  | None => false
  | Some reader =>
      match reader file_path with
      | Py.Raise _ => false
      | Py.Ok parts =>
          match App.texts_of parts with
          | Some _ => true
          | None => false
          end
      end
  end.

(** One message was shown for a failure: a warning beside the note that
    the library is missing, or an error whose text is the diagnostic
    without its brackets. *)
Definition diagnosed (install_note text : string)
           (messages : list Py.ui_message) : Prop :=
  exists message,
    messages = [message]
    /\ match message with
       | Py.Warning _ => text = install_note
       | Py.Error e => text = "[" ++ e ++ "]"
       end.

(** Every character is left as it is by [str.lower]. *)
Fixpoint lowercase (s : string) : bool :=
  match s with
  | EmptyString => true
  | String c s' => (Ascii.eqb (PyChar.lower c) c && lowercase s')%bool
  end.

End Text.

(** ** The page: dependency check and file upload *)

Module Main.
Import Py App.
Local Open Scope py_scope.



(** [s[n:]] *)
Fixpoint drop (n : nat) (s : string) : string :=
  match n, s with
  | S n', String _ s' => drop n' s'
  | _, _ => s
  end.

(** [s.endswith(suffix)] *)
Definition endswith (suffix s : string) : bool :=
  (Nat.leb (PyStr.len suffix) (PyStr.len s)
   && String.eqb (drop (PyStr.len s - PyStr.len suffix) s) suffix)%bool.

(** The files on disk, beside the session of the page. *)
Record world : Type := {
  page : session;
  files : list string
}.

(** The text of an uploaded file: by the ending of its name, from the PDF
    reader, from the DOCX reader, or the decoded content itself. [decoded]
    is [uploaded_file.getvalue().decode('utf-8', errors='ignore')]. *)
Definition upload_text (E : env) (name decoded tmp_file_path : string)
  : M string :=
  if endswith ".pdf" (PyStr.lower name) then
    extract_pdf_text E tmp_file_path
  else if endswith ".docx" (PyStr.lower name) then
    extract_docx_text E tmp_file_path
  else ret decoded.

(** [os.unlink(path)] when [os.path.exists(path)]. *)
Definition unlink_if_exists (path : string) (fs : list string)
  : list string :=
  if PyStr.mem path fs then remove string_dec path fs else fs.

(** The branch of [main] that handles an uploaded file once the button is
    pressed. [tmp] is what creating and writing the temporary file gives:
    its path, or the exception raised. [display] is the rendering of the
    record and of the preview, which may raise. The temporary file is made
    before the [try], the text is extracted, analysed and displayed inside
    it, any exception is shown as an error, and the [finally] clause
    removes the file. *)
Definition process_upload
           (E : env) (display : pyval -> string -> M unit)
           (name decoded : string) (tmp : result string) (w : world)
  : result unit * world :=
  match tmp with
  | Raise e => (Raise e, w)
  | Ok tmp_file_path =>
      let on_disk := tmp_file_path :: files w in
      let attempt :=
        try_except
          (text <- upload_text E name decoded tmp_file_path ;;
           metadata <- generate_basic_metadata_from_text E text name ;;
           display metadata (PyStr.take 500 text))
          (fun e => st_error ("Error processing file: " ++ exn_str e)) in
      let (outcome, page') := attempt (page w) in
      (outcome,
       {| page := page'; files := unlink_if_exists tmp_file_path on_disk |})
  end.

End Main.

(** * Properties *)

Import Py App.

(** ** Strings *)

Lemma is_empty_true (s : string) : PyStr.is_empty s = true <-> s = "".
Proof. destruct s; simpl; split; congruence. Qed.

Lemma is_empty_false (s : string) : PyStr.is_empty s = false <-> s <> "".
Proof. destruct s; simpl; split; congruence. Qed.

Lemma clean_preprocess (text : string) : clean text = preprocess_text text.
Proof. unfold clean, preprocess_text. destruct text; reflexivity. Qed.

Lemma of_rev_cons (c : ascii) (cur : list ascii) : PyStr.of_rev (c :: cur) <> "".
Proof.
  unfold PyStr.of_rev. simpl. destruct (rev cur); simpl; discriminate.
Qed.

Lemma split_ws_from_open (s : string) (c : ascii) (cur : list ascii) :
  exists w ws, PyStr.split_ws_from (c :: cur) s = w :: ws /\ w <> "".
Proof.
  revert c cur. induction s as [|d s IH]; intros c cur; simpl.
  - exists (PyStr.of_rev (c :: cur)), []. split; [reflexivity|apply of_rev_cons].
  - destruct (PyChar.isspace d).
    + exists (PyStr.of_rev (c :: cur)), (PyStr.split_ws_from [] s).
      split; [reflexivity|apply of_rev_cons].
    + apply IH.
Qed.

Lemma join_head_nonempty (sep w : string) (ws : list string) :
  w <> "" -> PyStr.join sep (w :: ws) <> "".
Proof.
  intros Hw. destruct w as [|c w]; [congruence|].
  destruct ws; simpl; discriminate.
Qed.

(** A text that starts with a character that is not whitespace is not
    emptied by the preprocessing. *)
Lemma preprocess_keeps_text (c : ascii) (rest : string) :
  PyChar.isspace c = false -> preprocess_text (String c rest) <> "".
Proof.
  intros Hc. unfold preprocess_text, PyStr.split_ws. simpl. rewrite Hc.
  destruct (split_ws_from_open rest c []) as (w & ws & -> & Hw).
  now apply join_head_nonempty.
Qed.

(** ** The record as a whole *)

(** The generator returns, whatever the text, the name and the session, and
    what it returns is the schema with its assigned fields filled in. *)
Lemma generate_returns (E : env) (text filename : string) (s : session) :
  returned (generate_basic_metadata_from_text E text filename) s =
  Some (filled_schema filename (path_suffix E filename) (strftime E)
          (Z.of_nat (List.length (words_of (clean text))))
          (Z.of_nat (PyStr.len (clean text)))
          (classify_document_type (clean text))
          (readability_of E (clean text))
          (summary_of (clean text))
          (key_topics_of (clean text) (words_of (clean text)))
          (entities_of E (clean text)) (elapsed E)
          (if PyStr.is_empty (clean text) then float_0_1 else float_0_8)).
Proof.
  unfold generate_basic_metadata_from_text, readability_block,
    readability_of, returned.
  fold (clean text). fold (words_of (clean text)).
  generalize (clean text) as t. intro t.
  generalize (words_of t) (classify_document_type t) (summary_of t)
    (entities_of E t) (path_suffix E filename) (strftime E) (elapsed E).
  intros ws doc_type summary entities suffix date time.
  generalize (key_topics_of t ws)
    (negb (PyStr.is_empty t) && Nat.ltb 0 (PyStr.len (PyStr.strip t)))%bool
    (if PyStr.is_empty t then float_0_1 else float_0_8).
  intros topics scored confidence.
  destruct (textstat E) as [flesch|]; [destruct scored|];
    cbv [bind import ret lift try_except raise].
  - destruct (flesch t) as [score|[[] msg]]; try reflexivity.
    destruct s as [[] sh]; reflexivity.
  - reflexivity.
  - destruct s as [[] sh]; reflexivity.
Qed.

(** C5: for the empty text the generator returns a record whose word count
    and character count are 0 and whose summary is the fixed message
    "No text content extracted". *)
Theorem empty_text_counts_and_summary
        (E : env) (filename : string) (s : session) :
  exists metadata,
    returned (generate_basic_metadata_from_text E "" filename) s
    = Some metadata
    /\ get_field metadata "content_analysis" "word_count" = Some (PInt 0)
    /\ get_field metadata "content_analysis" "character_count"
       = Some (PInt 0)
    /\ get_field metadata "semantic_data" "summary"
       = Some (PStr "No text content extracted").
Proof.
  rewrite generate_returns. eexists. split; [reflexivity|].
  repeat split; reflexivity.
Qed.

(** C10: the confidence score of the returned record is the float 0.8 when
    the preprocessed text is not empty and the float 0.1 when it is; a text
    that starts with a bracket, as every diagnostic placeholder does, gets
    0.8. *)
Theorem confidence_score_by_emptiness
        (E : env) (text filename rest : string) (s : session) :
  (exists metadata,
      returned (generate_basic_metadata_from_text E text filename) s
      = Some metadata
      /\ get_field metadata "technical_metadata" "confidence_score"
         = Some (PFloat (if PyStr.is_empty (preprocess_text text)
                         then float_0_1 else float_0_8)))
  /\ (exists metadata,
         returned
           (generate_basic_metadata_from_text E (String "[" rest) filename) s
         = Some metadata
         /\ get_field metadata "technical_metadata" "confidence_score"
            = Some (PFloat float_0_8)).
Proof.
  split; rewrite generate_returns; eexists; (split; [reflexivity|]);
    rewrite clean_preprocess.
  - reflexivity.
  - assert (H : preprocess_text (String "[" rest) <> "")
      by (apply preprocess_keeps_text; reflexivity).
    apply is_empty_false in H. cbn [get_field filled_schema getitem String.eqb
      Ascii.eqb Bool.eqb]. now rewrite H.
Qed.

(** ** Classification *)

(** C2: a text whose lowercased form contains "abstract" is classified as
    "Academic Paper", whatever else it contains. *)
Theorem abstract_is_academic_paper (text : string) :
  PyStr.contains "abstract" (PyStr.lower text) = true ->
  classify_document_type text = "Academic Paper".
Proof.
  intros H. unfold classify_document_type.
  destruct text as [|c text].
  - simpl in H. discriminate.
  - cbn [PyStr.is_empty]. unfold any_in at 1. cbn [existsb].
    now rewrite H.
Qed.

Lemma abstract_is_academic_paper_witness :
  PyStr.contains "abstract" (PyStr.lower "An ABSTRACT of a business story")
  = true
  /\ classify_document_type "An ABSTRACT of a business story"
     = "Academic Paper".
Proof.
  split; [reflexivity|].
  apply (abstract_is_academic_paper "An ABSTRACT of a business story").
  reflexivity.
Defined.

(** ** The schema *)

(** C8: whatever the text and the name, the returned record has the four
    groups of the schema and, in each, the fields of the schema in their
    order; the two fields that are never assigned, [file_size] and
    [creation_date], hold the defaults of the schema. *)
Theorem record_keeps_schema
        (E : env) (text filename : string) (s : session) :
  exists metadata,
    returned (generate_basic_metadata_from_text E text filename) s
    = Some metadata
    /\ shape metadata = shape create_metadata_schema
    /\ shape metadata
       = Some [("basic_info",
                ["filename"; "file_type"; "file_size"; "creation_date";
                 "processing_date"]);
               ("content_analysis",
                ["word_count"; "character_count"; "document_type";
                 "readability_score"]);
               ("semantic_data", ["summary"; "key_topics"; "entities"]);
               ("technical_metadata",
                ["extraction_method"; "processing_time";
                 "confidence_score"])]
    /\ get_field metadata "basic_info" "file_size"
       = get_field create_metadata_schema "basic_info" "file_size"
    /\ get_field metadata "basic_info" "creation_date"
       = get_field create_metadata_schema "basic_info" "creation_date"
    /\ get_field metadata "basic_info" "file_size" = Some (PInt 0)
    /\ get_field metadata "basic_info" "creation_date" = Some (PStr "").
Proof.
  rewrite generate_returns. eexists. split; [reflexivity|].
  repeat split; reflexivity.
Qed.

(** ** The extractors *)

Lemma append_assoc3 (a b c : string) : (a ++ b) ++ c = a ++ b ++ c.
Proof. induction a as [|x a IH]; simpl; [reflexivity|now rewrite IH]. Qed.

Lemma append_empty_r (a : string) : a ++ "" = a.
Proof. induction a as [|x a IH]; simpl; [reflexivity|now rewrite IH]. Qed.

(** The loop over the parts returns the lines read so far followed by the
    lines of the parts, or raises what the first failing part raises. *)
Lemma concat_lines_from (parts : list (result string)) (acc : string)
      (s : session) :
  match texts_of parts with
  | Some texts =>
      for_each parts acc
        (fun text part =>
           Py.bind (lift part)
                   (fun t => ret (text ++ t ++ String "010" ""))) s
      = (Ok (acc ++ lines texts), s)
  | None =>
      exists e,
        for_each parts acc
          (fun text part =>
             Py.bind (lift part)
                     (fun t => ret (text ++ t ++ String "010" ""))) s
        = (Raise e, s)
  end.
Proof.
  revert acc. induction parts as [|[t|e] parts IH]; intros acc; simpl.
  - now rewrite append_empty_r.
  - specialize (IH (acc ++ t ++ String "010" "")).
    destruct (texts_of parts) as [texts|]; simpl.
    + cbv [Py.bind lift ret] in *. rewrite IH.
      now rewrite !append_assoc3.
    + destruct IH as [e IH]. exists e. cbv [Py.bind lift ret] in *.
      exact IH.
  - exists e. reflexivity.
Qed.

(** C9: neither extractor lets an exception out. Each returns a string: one
    that starts with a bracket when the library is missing, when opening
    the file raises or when reading a page or paragraph raises, and
    otherwise the stripped text of the pages or paragraphs, a line each. *)
Theorem extractors_return_text_or_diagnostic
        (E : env) (file_path : string) (s : session) :
  (exists text,
      fst (extract_pdf_text E file_path s) = Ok text
      /\ extractor_result (PyPDF2 E) file_path text)
  /\ (exists text,
         fst (extract_docx_text E file_path s) = Ok text
         /\ extractor_result (docx E) file_path text).
Proof.
  unfold extract_pdf_text, extract_docx_text, extractor_result,
    concat_lines.
  split.
  - destruct (PyPDF2 E) as [reader|];
      [|eexists; split; reflexivity].
    cbv [try_except Py.bind import ret lift].
    destruct (reader file_path) as [parts|e].
    + pose proof (concat_lines_from parts "" s) as H.
      cbv [Py.bind lift ret] in H.
      destruct (texts_of parts) as [texts|].
      * rewrite H. eexists. split; reflexivity.
      * destruct H as [e ->]. destruct e as [[] msg]; eexists;
          split; reflexivity.
    + destruct e as [[] msg]; eexists; split; reflexivity.
  - destruct (docx E) as [reader|];
      [|eexists; split; reflexivity].
    cbv [try_except Py.bind import ret lift].
    destruct (reader file_path) as [parts|e].
    + pose proof (concat_lines_from parts "" s) as H.
      cbv [Py.bind lift ret] in H.
      destruct (texts_of parts) as [texts|].
      * rewrite H. eexists. split; reflexivity.
      * destruct H as [e ->]. destruct e as [[] msg]; eexists;
          split; reflexivity.
    + destruct e as [[] msg]; eexists; split; reflexivity.
Qed.

(** ** JSON *)

Import Native.

Lemma mem_In (k : string) (l : list string) :
  PyStr.mem k l = true <-> In k l.
Proof.
  unfold PyStr.mem. rewrite existsb_exists. split.
  - intros (x & Hx & Heq). apply String.eqb_eq in Heq. now subst.
  - intros H. exists k. split; [exact H|apply String.eqb_refl].
Qed.

Lemma distinct_NoDup (l : list string) : distinct l = true <-> NoDup l.
Proof.
  induction l as [|k l IH]; simpl.
  - split; [constructor|reflexivity].
  - rewrite andb_true_iff, negb_true_iff, IH. split.
    + intros [Hk Hl]. constructor; [|exact Hl].
      intros Hin. apply mem_In in Hin. congruence.
    + intros H. inversion H as [|? ? Hk Hl]; subst. split; [|exact Hl].
      destruct (PyStr.mem k l) eqn:Hm; [|reflexivity].
      apply mem_In in Hm. contradiction.
Qed.

Lemma setitem_new (d : dict) (k : string) (v : pyval) :
  ~ In k (keys d) -> setitem d k v = (d ++ [(k, v)])%list.
Proof.
  induction d as [|[k' v'] d IH]; simpl; intros H; [reflexivity|].
  destruct (String.eqb k' k) eqn:Hk.
  - apply String.eqb_eq in Hk. tauto.
  - rewrite IH; [reflexivity|tauto].
Qed.

(** Reading the members of an object with distinct names into a [dict]
    adds them in order. *)
Lemma read_members (members : list (string * Json.json)) (d : dict) :
  NoDup (keys d ++ map fst members)%list ->
  fold_left (fun d m => setitem d (fst m) (Json.loads (snd m))) members d
  = (d ++ map (fun m => (fst m, Json.loads (snd m))) members)%list.
Proof.
  revert d. induction members as [|[k j] members IH]; intros d H; simpl.
  - now rewrite app_nil_r.
  - rewrite setitem_new.
    + rewrite IH.
      * now rewrite <- app_assoc.
      * unfold keys in *. rewrite map_app, <- app_assoc. exact H.
    + simpl in H. apply NoDup_remove_2 in H. intros Hin. apply H.
      apply in_or_app. now left.
Qed.

(** What JSON keeps is written and read back unchanged. *)
Lemma native_roundtrip (v : pyval) :
  json_native v = true -> Json.roundtrip v = Some v.
Proof.
  unfold Json.roundtrip.
  induction v as [| | | | |items IH|items IH|items IH|items IH]
    using pyval_nested_ind; simpl; intros Hn;
    try reflexivity; try discriminate.
  - assert (H : exists js,
               (fix each (l : list pyval) : option (list Json.json) :=
                  match l with
                  | [] => Some []
                  | x :: l' =>
                      match Json.dumps x, each l' with
                      | Some j, Some js => Some (j :: js)
                      | _, _ => None
                      end
                  end) items = Some js
               /\ map Json.loads js = items).
    { induction items as [|x items IHl]; [now exists []|].
      simpl in Hn. apply andb_true_iff in Hn as [Hx Hl].
      inversion IH as [|? ? Hx' Hl']; subst.
      destruct (IHl Hl' Hl) as (js & -> & Hjs).
      specialize (Hx' Hx). destruct (Json.dumps x) as [j|]; [|discriminate].
      exists (j :: js). split; [reflexivity|]. simpl in *.
      congruence. }
    destruct H as (js & -> & Hjs). simpl. now rewrite Hjs.
  - apply andb_true_iff in Hn as [Hd Hn]. apply distinct_NoDup in Hd.
    assert (H : exists ms,
               (fix each (l : list (string * pyval))
                  : option (list (string * Json.json)) :=
                  match l with
                  | [] => Some []
                  | (k, x) :: l' =>
                      match Json.dumps x, each l' with
                      | Some j, Some js => Some ((k, j) :: js)
                      | _, _ => None
                      end
                  end) items = Some ms
               /\ map fst ms = map fst items
               /\ map (fun m => (fst m, Json.loads (snd m))) ms = items).
    { clear Hd. induction items as [|[k x] items IHl]; [now exists []|].
      simpl in Hn. apply andb_true_iff in Hn as [Hx Hl].
      inversion IH as [|? ? Hx' Hl']; subst.
      destruct (IHl Hl' Hl) as (ms & -> & Hk & Hms).
      specialize (Hx' Hx). simpl in Hx'.
      destruct (Json.dumps x) as [j|]; [|discriminate].
      exists ((k, j) :: ms). split; [reflexivity|]. simpl in *.
      split; congruence. }
    destruct H as (ms & -> & Hk & Hms). simpl.
    rewrite read_members; [simpl; now rewrite Hms|].
    simpl. now rewrite Hk.
Qed.

Lemma str_list_native (l : list string) : json_native (str_list l) = true.
Proof.
  unfold str_list. simpl. induction l; simpl; [reflexivity|assumption].
Qed.

Lemma entities_native (E : env) (text : string) :
  json_native (PDict (entities_of E text)) = true.
Proof.
  unfold entities_of. destruct (PyStr.is_empty text); [reflexivity|].
  cbn [setitem String.eqb Ascii.eqb Bool.eqb json_native map fst snd
       distinct forallb].
  rewrite !str_list_native. reflexivity.
Qed.

Lemma readability_native (E : env) (text : string) :
  json_native (readability_of E text) = true.
Proof.
  unfold readability_of. destruct (textstat E) as [flesch|]; [|reflexivity].
  destruct (_ && _)%bool; [|reflexivity].
  destruct (flesch text); reflexivity.
Qed.

Lemma filled_schema_native
      (filename file_type processing_date : string)
      (word_count character_count : Z) (document_type : string)
      (readability_score : pyval) (summary : string)
      (key_topics : list string) (entities : dict)
      (processing_time confidence_score : float) :
  json_native readability_score = true ->
  json_native (PDict entities) = true ->
  json_native
    (filled_schema filename file_type processing_date word_count
       character_count document_type readability_score summary key_topics
       entities processing_time confidence_score) = true.
Proof.
  intros Hr He. pose proof (str_list_native key_topics) as Hk.
  simpl in *. rewrite Hr, He, Hk. reflexivity.
Qed.

(** The record is made of [dict]s with distinct names, strings, integers,
    floats and lists of strings only. *)
Lemma record_native (E : env) (text filename : string) (s : session) :
  exists metadata,
    returned (generate_basic_metadata_from_text E text filename) s
    = Some metadata
    /\ json_native metadata = true.
Proof.
  rewrite generate_returns. eexists. split; [reflexivity|].
  apply filled_schema_native;
    [apply readability_native|apply entities_native].
Qed.

(** C4: the record the generator returns is written by [json.dumps] and
    what [json.loads] reads back from that is the same record, every group
    and field with the value it had. *)
Theorem json_export_roundtrip
        (E : env) (text filename : string) (s : session) :
  exists metadata,
    returned (generate_basic_metadata_from_text E text filename) s
    = Some metadata
    /\ Json.roundtrip metadata = Some metadata.
Proof.
  destruct (record_native E text filename s) as (metadata & Hr & Hn).
  exists metadata. split; [exact Hr|]. now apply native_roundtrip.
Qed.

(** ** The summary *)

Lemma take_length (n : nat) (s : string) : PyStr.len (PyStr.take n s) <= n.
Proof.
  unfold PyStr.len. revert s.
  induction n as [|n IH]; intros [|c s]; simpl; try lia.
  specialize (IH s). lia.
Qed.

(** C7, as the code has it: when the preprocessed text is not empty, the
    summary is its first 200 characters if it has no sentence, and
    otherwise its first two sentences joined by a full stop and a space and
    closed by a full stop, with three more full stops after that when the
    joined sentences are longer than 200 characters. *)
Theorem summary_of_nonempty_text
        (E : env) (text filename : string) (s : session) :
  PyStr.is_empty (preprocess_text text) = false ->
  exists metadata,
    returned (generate_basic_metadata_from_text E text filename) s
    = Some metadata
    /\ get_field metadata "semantic_data" "summary"
       = Some
           (PStr
              (match sentences_of (preprocess_text text) with
               | [] => PyStr.take 200 (preprocess_text text)
               | _ :: _ =>
                   let joined :=
                     PyStr.join ". "
                       (firstn 2 (sentences_of (preprocess_text text)))
                     ++ "." in
                   if Nat.ltb 200 (PyStr.len joined) then joined ++ "..."
                   else joined
               end)).
Proof.
  intros Hne. rewrite generate_returns, clean_preprocess.
  eexists. split; [reflexivity|].
  cbn [get_field filled_schema getitem String.eqb Ascii.eqb Bool.eqb].
  unfold summary_of. rewrite Hne.
  destruct (sentences_of (preprocess_text text)) as [|s1 ss];
    [|reflexivity].
  pose proof (take_length 200 (preprocess_text text)) as Hlen.
  destruct (Nat.ltb_spec 200 (PyStr.len (PyStr.take 200 (preprocess_text text))));
    [lia|reflexivity].
Qed.

Lemma summary_of_nonempty_text_witness :
  PyStr.is_empty (preprocess_text "One  fine day. Two.  Three.") = false
  /\ exists metadata,
      returned
        (generate_basic_metadata_from_text
           bare_env "One  fine day. Two.  Three." "notes.txt") fresh_session
      = Some metadata
      /\ get_field metadata "semantic_data" "summary"
         = Some (PStr "One fine day. Two.").
Proof.
  split; [reflexivity|].
  exact (summary_of_nonempty_text
           bare_env "One  fine day. Two.  Three." "notes.txt" fresh_session
           eq_refl).
Defined.

(** C7 as stated fails: the summary of a sentence of 201 letters is not
    that sentence closed by a full stop, since three more full stops
    follow. *)
Lemma long_summary_is_not_the_joined_sentences :
  ~ (forall (E : env) (text filename : string) (s : session),
        PyStr.is_empty (preprocess_text text) = false ->
        sentences_of (preprocess_text text) <> [] ->
        exists metadata,
          returned (generate_basic_metadata_from_text E text filename) s
          = Some metadata
          /\ get_field metadata "semantic_data" "summary"
             = Some
                 (PStr
                    (PyStr.join ". "
                       (firstn 2 (sentences_of (preprocess_text text)))
                     ++ "."))).
Proof.
  intros H.
  destruct (H bare_env long_sentence "long.txt" fresh_session)
    as (metadata & Hr & Hs).
  - reflexivity.
  - vm_compute. discriminate.
  - rewrite generate_returns in Hr. injection Hr as <-.
    vm_compute in Hs. discriminate Hs.
Qed.

(** ** Key topics *)

(** There are never more than five key topics. *)
Lemma key_topics_at_most_five (text : string) (words : list string) :
  List.length (key_topics_of text words) <= 5.
Proof.
  unfold key_topics_of, Collections.most_common.
  destruct (PyStr.is_empty text); [simpl; lia|].
  rewrite length_map. apply firstn_le_length.
Qed.

(** A word passes the filter when it is longer than three characters and
    its lowercased form, punctuation included, is not a stop word. *)
Lemma words_clean_origin (words : list string) (topic : string) :
  In topic (words_clean_of words) ->
  exists word,
    In word words
    /\ topic = PyStr.strip_chars punctuation (PyStr.lower word)
    /\ 3 < PyStr.len word
    /\ PyStr.mem (PyStr.lower word) stop_words = false.
Proof.
  unfold words_clean_of. rewrite in_map_iff.
  intros (word & <- & Hin). apply filter_In in Hin as [Hin Hf].
  apply andb_true_iff in Hf as [Hlen Hstop].
  exists word. repeat split; [exact Hin| |].
  - now apply Nat.ltb_lt.
  - now apply negb_true_iff.
Qed.

(** C3: on the text "We know that, with time, things change." the key
    topics are know, that, time, things and change: there are five of them,
    and "that" and "time" are stop words, kept because the comma was still
    attached to them when the stop list was consulted. *)
Theorem key_topics_keep_punctuated_stop_words
        (E : env) (filename : string) (s : session) :
  exists metadata,
    returned
      (generate_basic_metadata_from_text
         E "We know that, with time, things change." filename) s
    = Some metadata
    /\ get_field metadata "semantic_data" "key_topics"
       = Some (str_list ["know"; "that"; "time"; "things"; "change"])
    /\ PyStr.mem "that" stop_words = true
    /\ PyStr.mem "time" stop_words = true.
Proof.
  rewrite generate_returns. eexists. split; [reflexivity|].
  repeat split; reflexivity.
Qed.

(** ** Entities *)

Lemma NoDup_firstn_of {A} (n : nat) (l : list A) :
  NoDup l -> NoDup (firstn n l).
Proof.
  intros H. rewrite <- (firstn_skipn n l) in H.
  now apply NoDup_app_remove_r in H.
Qed.

(** C6, as the code has it: the three scanned lists of the record hold no
    element twice; at most 5 names and at most 3 dates are kept; the
    percentages are all kept, each match of the scan once. *)
Theorem entity_lists_deduplicated
        (E : env) (text filename : string) (s : session) :
  exists metadata persons dates percents,
    returned (generate_basic_metadata_from_text E text filename) s
    = Some metadata
    /\ entity_list metadata "PERSON" = Some (str_list persons)
    /\ entity_list metadata "DATE" = Some (str_list dates)
    /\ entity_list metadata "PERCENT" = Some (str_list percents)
    /\ NoDup persons /\ NoDup dates /\ NoDup percents
    /\ List.length persons <= 5
    /\ List.length dates <= 3
    /\ (forall p,
           In p percents
           <-> In p (Regex.findall Regex.percent_pattern
                                   (preprocess_text text))).
Proof.
  rewrite generate_returns, clean_preprocess.
  destruct (PyStr.is_empty (preprocess_text text)) eqn:Hempty.
  - exists (filled_schema filename (path_suffix E filename) (strftime E)
          (Z.of_nat (List.length (words_of (preprocess_text text))))
          (Z.of_nat (PyStr.len (preprocess_text text)))
          (classify_document_type (preprocess_text text))
          (readability_of E (preprocess_text text))
          (summary_of (preprocess_text text))
          (key_topics_of (preprocess_text text)
                         (words_of (preprocess_text text)))
          (entities_of E (preprocess_text text)) (elapsed E) float_0_1),
      [], [], [].
    split; [reflexivity|].
    unfold entity_list, entities_of. rewrite Hempty.
    apply is_empty_true in Hempty. rewrite Hempty.
    repeat split; try reflexivity; try constructor; simpl; try lia;
      intros H; exact H.
  - eexists.
    exists (firstn 5 (list_of_set E (Regex.findall Regex.capitalized_pattern
                                                   (preprocess_text text)))),
      (firstn 3 (list_of_set E (Regex.findall Regex.date_pattern
                                              (preprocess_text text)))),
      (list_of_set E (Regex.findall Regex.percent_pattern
                                    (preprocess_text text))).
    split; [reflexivity|].
    unfold entity_list, entities_of. rewrite Hempty.
    repeat split; try reflexivity.
    + apply NoDup_firstn_of, list_of_set_NoDup.
    + apply NoDup_firstn_of, list_of_set_NoDup.
    + apply list_of_set_NoDup.
    + apply firstn_le_length.
    + apply firstn_le_length.
    + apply list_of_set_In.
    + apply list_of_set_In.
Qed.

(** *** Texts without whitespace are left as they are *)

Lemma split_ws_from_solid (s : string) (cur : list ascii) :
  solid s = true ->
  PyStr.split_ws_from cur s
  = PyStr.flush (rev (list_ascii_of_string s) ++ cur)%list [].
Proof.
  revert cur. induction s as [|c s IH]; intros cur H; simpl in *.
  - reflexivity.
  - apply andb_true_iff in H as [Hc Hs]. apply negb_true_iff in Hc.
    rewrite Hc, IH by exact Hs. now rewrite <- app_assoc.
Qed.

Lemma preprocess_solid (c : ascii) (s : string) :
  solid (String c s) = true -> preprocess_text (String c s) = String c s.
Proof.
  intros H. unfold preprocess_text, PyStr.split_ws.
  cbn [PyStr.is_empty]. rewrite split_ws_from_solid by exact H.
  rewrite app_nil_r. unfold PyStr.flush, PyStr.of_rev.
  destruct (rev (list_ascii_of_string (String c s))) eqn:Hrev.
  - apply (f_equal (@List.length ascii)) in Hrev.
    rewrite length_rev in Hrev. simpl in Hrev. discriminate.
  - rewrite <- Hrev, rev_involutive, string_of_list_ascii_of_string.
    reflexivity.
Qed.

Lemma solid_append (a b : string) :
  solid (a ++ b) = (solid a && solid b)%bool.
Proof.
  induction a as [|c a IH]; simpl; [reflexivity|].
  now rewrite IH, andb_assoc.
Qed.

Lemma solid_ones (k : nat) : solid (ones k) = true.
Proof. induction k; simpl; [reflexivity|assumption]. Qed.

Lemma solid_percent_run (n : nat) : solid (percent_run n) = true.
Proof.
  induction n as [|n IH]; [reflexivity|].
  cbn [percent_run]. rewrite !solid_append, solid_ones, IH. reflexivity.
Qed.

(** *** The percentage scan on a run of percentages *)

Lemma length_append (a b : string) :
  String.length (a ++ b) = String.length a + String.length b.
Proof. induction a as [|c a IH]; simpl; [reflexivity|now rewrite IH]. Qed.

Lemma take_append (a b : string) : PyStr.take (String.length a) (a ++ b) = a.
Proof. induction a as [|c a IH]; simpl; [now destruct b|now rewrite IH]. Qed.

(** Passing over the rest of a match takes the scan to its end. *)
Lemma scan_skip (r : Regex.regex) (passed rest : string)
      (prev : option ascii) :
  Regex.scan r (String.length passed) prev (passed ++ rest)
  = Regex.scan r 0 (last_of prev passed) rest.
Proof.
  revert prev. induction passed as [|c passed IH]; intros prev.
  - reflexivity.
  - simpl. apply IH.
Qed.

(** A repetition of digits runs through a row of ones when what follows
    the row can be matched. *)
Lemma rounds_ones {X : Type} (K : @Regex.position_fn X) (x : X)
      (tail : string) (k fuel : nat) :
  k <= fuel ->
  K (Some "1"%char) (String "%" tail) = Some x ->
  Regex.rounds (Regex.run Regex.digit) K fuel (Some "1"%char)
               (ones k ++ String "%" tail) = Some x.
Proof.
  intros Hfuel HK. revert fuel Hfuel.
  induction k as [|k IH]; intros fuel Hfuel.
  - destruct fuel; simpl; [exact HK|]. exact HK.
  - destruct fuel as [|fuel]; [lia|].
    cbn [ones append Regex.rounds Regex.run Regex.digit].
    change (PyChar.isdecimal "1") with true. cbv iota.
    replace (Nat.ltb _ _) with true
      by (symmetry; apply Nat.ltb_lt; simpl; lia).
    rewrite IH by lia. reflexivity.
Qed.

Lemma length_ones (k : nat) : String.length (ones k) = k.
Proof. induction k; simpl; [reflexivity|now rewrite IHk]. Qed.

Lemma match_percent_token (k : nat) (prev : option ascii) (tail : string) :
  Regex.word_opt prev = false ->
  Regex.match_at Regex.percent_pattern prev
                 (ones (S k) ++ "%a," ++ tail)
  = Some ("a," ++ tail).
Proof.
  intros Hprev. unfold Regex.match_at, Regex.percent_pattern.
  cbn [Regex.cat Regex.plus Regex.run ones append].
  unfold Regex.at_boundary at 1. rewrite Hprev.
  cbn [Regex.next_char Regex.word_opt].
  change (PyChar.isword "1") with true.
  change (Regex.digit) with (Regex.Chr PyChar.isdecimal) at 1.
  cbn [xorb Regex.run]. change (PyChar.isdecimal "1") with true.
  cbv iota. apply rounds_ones.
  - rewrite length_append, length_ones. lia.
  - reflexivity.
Qed.

Lemma last_of_ones_percent (k : nat) (prev : option ascii) :
  last_of prev (ones k ++ "%") = Some "%"%char.
Proof. revert prev. induction k; intros prev; simpl; [reflexivity|apply IHk]. Qed.

Lemma scan_percent_run (n : nat) (prev : option ascii) :
  Regex.word_opt prev = false ->
  Regex.scan Regex.percent_pattern 0 prev (percent_run n)
  = percent_tokens n.
Proof.
  revert prev. induction n as [|n IH]; intros prev Hprev.
  - cbn [percent_run percent_tokens Regex.scan].
    unfold Regex.match_at, Regex.percent_pattern.
    cbn [Regex.cat Regex.run]. unfold Regex.at_boundary.
    rewrite Hprev. reflexivity.
  - cbn [percent_run percent_tokens].
    pose proof (match_percent_token n prev (percent_run n) Hprev) as Hm.
    change (ones (S n)) with (String "1" (ones n)) in *.
    cbn [append] in *. cbn [Regex.scan]. rewrite Hm.
    replace (String.length (String "1" (ones n ++ String "%" (String "a" (String "," (percent_run n)))))
             - String.length (String "a" (String "," (percent_run n))))
      with (S (String.length (ones n ++ "%"))).
    2:{ simpl. rewrite !length_append. simpl. lia. }
    cbn [PyStr.take]. f_equal.
    + f_equal.
      change (ones n ++ String "%" (String "a" (String "," (percent_run n))))
        with (ones n ++ ("%" ++ String "a" (String "," (percent_run n)))).
      rewrite <- append_assoc3. apply take_append.
    + replace (S (String.length (ones n ++ "%")) - 1)
        with (String.length (ones n ++ "%")) by lia.
      change (ones n ++ String "%" (String "a" (String "," (percent_run n))))
        with (ones n ++ ("%" ++ String "a" (String "," (percent_run n)))).
      rewrite <- append_assoc3, scan_skip, last_of_ones_percent.
      change (Regex.scan Regex.percent_pattern 0 (Some "%"%char)
                (String "a" (String "," (percent_run n))))
        with (Regex.scan Regex.percent_pattern 0 (Some ","%char)
                (percent_run n)).
      apply IH. reflexivity.
Qed.

Lemma percent_tokens_length (n : nat) : List.length (percent_tokens n) = n.
Proof. induction n; simpl; [reflexivity|now rewrite IHn]. Qed.

Lemma percent_tokens_origin (n : nat) (token : string) :
  In token (percent_tokens n) ->
  exists k, k <= n /\ token = ones k ++ "%".
Proof.
  induction n as [|n IH]; simpl; [tauto|].
  intros [<-|H].
  - exists (S n). split; [lia|reflexivity].
  - destruct (IH H) as (k & Hk & ->). exists k. split; [lia|reflexivity].
Qed.

Lemma percent_tokens_NoDup (n : nat) : NoDup (percent_tokens n).
Proof.
  induction n as [|n IH]; simpl; constructor; [|exact IH].
  intros H. apply percent_tokens_origin in H as (k & Hk & Heq).
  apply (f_equal String.length) in Heq.
  change (String "1" (ones n ++ "%")) with (ones (S n) ++ "%") in Heq.
  rewrite !length_append, !length_ones in Heq. lia.
Qed.

(** A [set] built from distinct elements has as many elements. *)
Lemma list_of_set_length (E : env) (xs : list string) :
  NoDup xs -> List.length (list_of_set E xs) = List.length xs.
Proof.
  intros H. apply Permutation_length, NoDup_Permutation.
  - apply list_of_set_NoDup.
  - exact H.
  - apply list_of_set_In.
Qed.

(** The percentages of the record on a run of [n] percentages are [n]. *)
Lemma percent_run_entities (E : env) (n : nat) (filename : string)
      (s : session) :
  exists metadata percents,
    returned
      (generate_basic_metadata_from_text E (percent_run (S n)) filename) s
    = Some metadata
    /\ entity_list metadata "PERCENT" = Some (str_list percents)
    /\ List.length percents = S n.
Proof.
  rewrite generate_returns, clean_preprocess.
  assert (Hp : preprocess_text (percent_run (S n)) = percent_run (S n)).
  { pose proof (solid_percent_run (S n)) as Hs.
    change (percent_run (S n))
      with (String "1" (ones n ++ "%a," ++ percent_run n)) in *.
    now apply preprocess_solid. }
  rewrite Hp. eexists.
  exists (list_of_set E (Regex.findall Regex.percent_pattern
                                       (percent_run (S n)))).
  split; [reflexivity|]. split; [reflexivity|].
  unfold Regex.findall. rewrite scan_percent_run by reflexivity.
  rewrite list_of_set_length by apply percent_tokens_NoDup.
  apply percent_tokens_length.
Qed.

(** C6 as stated fails: no count bounds the list of percentages. Whatever
    the bound, the text of one more percentage than that, as
    [11%a,1%a,] for the bound 1, has them all in the record. *)
Lemma percent_list_has_no_fixed_maximum :
  ~ (exists bound,
        forall (E : env) (text filename : string) (s : session),
        exists metadata percents,
          returned (generate_basic_metadata_from_text E text filename) s
          = Some metadata
          /\ entity_list metadata "PERCENT" = Some (str_list percents)
          /\ NoDup percents
          /\ List.length percents <= bound).
Proof.
  intros (bound & H).
  destruct (H bare_env (percent_run (S bound)) "run.txt" fresh_session)
    as (metadata & percents & Hr & Hp & _ & Hlen).
  destruct (percent_run_entities bare_env bound "run.txt" fresh_session)
    as (metadata' & percents' & Hr' & Hp' & Hlen').
  rewrite Hr in Hr'. injection Hr' as <-.
  rewrite Hp in Hp'. injection Hp' as Heq.
  apply (f_equal (@List.length pyval)) in Heq.
  rewrite !length_map in Heq. lia.
Qed.

(** *** What the percentage pattern needs after the percent sign *)

(** A successful run of a pattern passes some of the text and hands the rest
    to what follows. *)
Lemma run_reaches {X : Type} (r : Regex.regex) :
  forall (k : @Regex.position_fn X) prev s x,
    Regex.run r k prev s = Some x ->
    exists passed prev' s', s = passed ++ s' /\ k prev' s' = Some x.
Proof.
  induction r as [|p|a IHa b IHb|a IHa b IHb|a IHa|]; intros k prev s x H;
    simpl in H.
  - now exists "", prev, s.
  - destruct s as [|c s]; [discriminate|].
    destruct (p c); [|discriminate].
    now exists (String c ""), (Some c), s.
  - apply IHa in H as (p1 & prev1 & s1 & -> & H).
    apply IHb in H as (p2 & prev2 & s2 & -> & H).
    exists (p1 ++ p2), prev2, s2. split; [|exact H].
    now rewrite append_assoc3.
  - destruct (Regex.run a k prev s) as [y|] eqn:Ha.
    + injection H as ->. now apply IHa in Ha.
    + now apply IHb in H.
  - remember (String.length s) as n eqn:Hn. clear Hn.
    revert prev s H. induction n as [|n IHn]; intros prev s H; simpl in H.
    + now exists "", prev, s.
    + match type of H with
      | match ?body with _ => _ end = _ => destruct body as [y|] eqn:Ha
      end.
      * injection H as ->.
        apply IHa in Ha as (p1 & prev1 & s1 & -> & Ha).
        destruct (Nat.ltb _ _); [|discriminate].
        apply IHn in Ha as (p2 & prev2 & s2 & -> & Ha).
        exists (p1 ++ p2), prev2, s2. split; [|exact Ha].
        now rewrite append_assoc3.
      * now exists "", prev, s.
  - destruct (Regex.at_boundary prev s); [|discriminate].
    now exists "", prev, s.
Qed.

(** A match of the percentage pattern ends with a percent sign that a word
    character follows. *)
Lemma percent_match_shape (prev : option ascii) (s rest : string) :
  Regex.match_at Regex.percent_pattern prev s = Some rest ->
  exists passed,
    s = passed ++ String "%" rest
    /\ Regex.word_opt (Regex.next_char rest) = true.
Proof.
  unfold Regex.match_at, Regex.percent_pattern. intros H.
  change (Regex.run
            (Regex.Seq Regex.WordB
               (Regex.Seq (Regex.plus Regex.digit)
                  (Regex.opt (Regex.cat [Regex.lit "."; Regex.plus Regex.digit]))))
            (Regex.run (Regex.Seq (Regex.lit "%") Regex.WordB)
                       (fun _ rest => Some rest)) prev s = Some rest) in H.
  apply run_reaches in H as (passed & prev' & s' & -> & H).
  exists passed. cbn [Regex.run Regex.lit] in H.
  destruct s' as [|c s']; [discriminate|].
  destruct (Ascii.eqb_spec "%" c) as [<-|]; [|discriminate].
  unfold Regex.at_boundary in H. cbn [xorb Regex.word_opt] in H.
  change (PyChar.isword "%") with false in H.
  destruct (Regex.word_opt (Regex.next_char s')) eqn:Hw; [|discriminate].
  injection H as <-. split; [reflexivity|exact Hw].
Qed.

Lemma percent_before_word_found (passed rest : string) :
  Regex.word_opt (Regex.next_char rest) = true ->
  percent_before_word (passed ++ String "%" rest) = true.
Proof.
  intros H. induction passed as [|c passed IH]; simpl.
  - now rewrite H.
  - rewrite IH. apply orb_true_r.
Qed.

(** Where no percent sign is followed by a word character, as in every
    text whose percentages end a word, the scan finds no percentage. *)
Lemma percent_scan_needs_word_after (text : string) :
  percent_before_word text = false ->
  Regex.findall Regex.percent_pattern text = [].
Proof.
  unfold Regex.findall. generalize 0 as skip. generalize (@None ascii) as prev.
  assert (Hnone : forall prev s,
             percent_before_word s = false ->
             Regex.match_at Regex.percent_pattern prev s = None).
  { intros prev s Hs.
    destruct (Regex.match_at Regex.percent_pattern prev s) as [rest|] eqn:Hm;
      [|reflexivity].
    apply percent_match_shape in Hm as (passed & -> & Hw).
    rewrite percent_before_word_found in Hs by exact Hw. discriminate. }
  induction text as [|c text IH]; intros prev skip H.
  - simpl. rewrite Hnone by exact H. now destruct skip.
  - assert (Ht : percent_before_word text = false).
    { simpl in H. now apply orb_false_iff in H as [_ H]. }
    cbn [Regex.scan]. destruct skip as [|skip].
    + rewrite Hnone by exact H. now apply IH.
    + now apply IH.
Qed.

Lemma list_of_set_nil (E : env) : list_of_set E [] = [].
Proof.
  destruct (list_of_set E []) as [|x l] eqn:H; [reflexivity|].
  assert (Hin : In x (list_of_set E [])) by (rewrite H; now left).
  apply list_of_set_In in Hin. destruct Hin.
Qed.

(** C1: the scan for percentages finds nothing in "15%", nothing in "3.5%"
    and nothing in the sentence of the built-in business sample that says
    revenue increased by 15% compared to the previous quarter: the record of
    that sentence has an empty list of percentages. *)
Theorem percent_scan_misses_percentages
        (E : env) (filename : string) (s : session) :
  Regex.findall Regex.percent_pattern "15%" = []
  /\ Regex.findall Regex.percent_pattern "3.5%" = []
  /\ PyStr.contains "15%" sample_sentence = true
  /\ exists metadata,
      returned (generate_basic_metadata_from_text E sample_sentence filename)
               s
      = Some metadata
      /\ entity_list metadata "PERCENT" = Some (PList []).
Proof.
  split; [reflexivity|]. split; [reflexivity|]. split; [reflexivity|].
  rewrite generate_returns. eexists. split; [reflexivity|].
  assert (Hc : clean sample_sentence = sample_sentence) by reflexivity.
  rewrite Hc. unfold entity_list, entities_of.
  change (PyStr.is_empty sample_sentence) with false.
  cbn [get_field filled_schema getitem setitem String.eqb Ascii.eqb Bool.eqb].
  rewrite (percent_scan_needs_word_after sample_sentence) by reflexivity.
  now rewrite list_of_set_nil.
Qed.

(** * More properties of the pipeline *)

Import Text.

(** ** Preprocessing *)

Lemma forallb_rev_eq {A} (f : A -> bool) (l : list A) :
  forallb f (rev l) = forallb f l.
Proof.
  induction l as [|x l IH]; simpl; [reflexivity|].
  rewrite forallb_app, IH. simpl. rewrite andb_true_r. apply andb_comm.
Qed.

Lemma solid_of_list (l : list ascii) :
  App.solid (string_of_list_ascii l)
  = forallb (fun c => negb (PyChar.isspace c)) l.
Proof. induction l as [|c l IH]; simpl; [reflexivity|now rewrite IH]. Qed.

Lemma of_rev_word (c : ascii) (cur : list ascii) :
  forallb (fun c => negb (PyChar.isspace c)) (c :: cur) = true ->
  a_word (PyStr.of_rev (c :: cur)).
Proof.
  intros H. split; [apply of_rev_cons|].
  unfold PyStr.of_rev. now rewrite solid_of_list, forallb_rev_eq.
Qed.

(** What [str.split()] returns are words: none is empty and none holds
    whitespace. *)
Lemma split_ws_from_words (s : string) (cur : list ascii) :
  forallb (fun c => negb (PyChar.isspace c)) cur = true ->
  Forall a_word (PyStr.split_ws_from cur s).
Proof.
  revert cur. induction s as [|c s IH]; intros cur Hcur; simpl.
  - destruct cur as [|d cur]; simpl; [constructor|].
    constructor; [now apply of_rev_word|constructor].
  - destruct (PyChar.isspace c) eqn:Hc.
    + destruct cur as [|d cur]; simpl; [now apply IH|].
      constructor; [now apply of_rev_word|now apply IH].
    + apply IH. simpl. now rewrite Hc, Hcur.
Qed.

Lemma split_ws_words (s : string) : Forall a_word (PyStr.split_ws s).
Proof. now apply split_ws_from_words. Qed.

Lemma split_ws_from_word (w s : string) (cur : list ascii) :
  App.solid w = true ->
  PyStr.split_ws_from cur (w ++ s)
  = PyStr.split_ws_from (rev (list_ascii_of_string w) ++ cur)%list s.
Proof.
  revert cur. induction w as [|c w IH]; intros cur H; simpl in *.
  - reflexivity.
  - apply andb_true_iff in H as [Hc Hw]. apply negb_true_iff in Hc.
    rewrite Hc, IH by exact Hw. now rewrite <- app_assoc.
Qed.

Lemma of_rev_rev (w : string) :
  PyStr.of_rev (rev (list_ascii_of_string w)) = w.
Proof.
  unfold PyStr.of_rev.
  now rewrite rev_involutive, string_of_list_ascii_of_string.
Qed.

Lemma flush_word (w : string) (rest : list string) :
  w <> "" ->
  PyStr.flush (rev (list_ascii_of_string w)) rest = w :: rest.
Proof.
  intros Hw. unfold PyStr.flush.
  destruct (rev (list_ascii_of_string w)) eqn:Hrev.
  - destruct w; [congruence|].
    apply (f_equal (@List.length ascii)) in Hrev.
    rewrite length_rev in Hrev. discriminate.
  - now rewrite <- Hrev, of_rev_rev.
Qed.

(** Splitting what [" ".join] made of words gives the words back. *)
Lemma split_join_words (ws : list string) :
  Forall a_word ws -> PyStr.split_ws (PyStr.join " " ws) = ws.
Proof.
  unfold PyStr.split_ws.
  induction ws as [|w ws IH]; intros H; [reflexivity|].
  inversion H as [|? ? [Hne Hsolid] Hws]; subst.
  destruct ws as [|w2 ws].
  - simpl. rewrite <- (append_empty_r w) at 1.
    rewrite split_ws_from_word by exact Hsolid. simpl.
    rewrite app_nil_r. now apply flush_word.
  - change (PyStr.join " " (w :: w2 :: ws))
      with (w ++ String " " (PyStr.join " " (w2 :: ws))).
    rewrite split_ws_from_word by exact Hsolid.
    cbn [PyStr.split_ws_from].
    change (PyChar.isspace " ") with true. cbv iota.
    rewrite app_nil_r, flush_word by exact Hne.
    now rewrite IH.
Qed.

Lemma preprocess_keeps_words (text : string) :
  PyStr.split_ws (preprocess_text text) = PyStr.split_ws text.
Proof.
  unfold preprocess_text. destruct text as [|c text]; [reflexivity|].
  cbn [PyStr.is_empty]. apply split_join_words, split_ws_words.
Qed.

(** X1: the preprocessing keeps the words: splitting the preprocessed text
    gives the words of the text itself, so the word count of the record is
    the number of whitespace-separated words of the input. *)
Theorem word_count_counts_input_words
        (E : env) (text filename : string) (s : session) :
  PyStr.split_ws (preprocess_text text) = PyStr.split_ws text
  /\ exists metadata,
      returned (generate_basic_metadata_from_text E text filename) s
      = Some metadata
      /\ get_field metadata "content_analysis" "word_count"
         = Some (PInt (Z.of_nat (List.length (PyStr.split_ws text)))).
Proof.
  pose proof (preprocess_keeps_words text) as H.
  split; [exact H|].
  rewrite generate_returns, clean_preprocess. eexists.
  split; [reflexivity|].
  cbn [get_field filled_schema getitem String.eqb Ascii.eqb Bool.eqb].
  unfold words_of.
  destruct (PyStr.is_empty (preprocess_text text)) eqn:He.
  - apply is_empty_true in He. rewrite He in H. simpl in H.
    now rewrite <- H.
  - now rewrite H.
Qed.

(** X2: preprocessing a preprocessed text changes nothing. *)
Theorem preprocess_text_idempotent (text : string) :
  preprocess_text (preprocess_text text) = preprocess_text text.
Proof.
  pose proof (preprocess_keeps_words text) as H.
  unfold preprocess_text at 1.
  destruct (PyStr.is_empty (preprocess_text text)) eqn:He.
  - apply is_empty_true in He. now rewrite He.
  - rewrite H. unfold preprocess_text in *.
    destruct (PyStr.is_empty text); [discriminate|reflexivity].
Qed.

Lemma head_solid_word (w rest : string) :
  a_word w -> head_solid (w ++ rest) = true.
Proof.
  intros [Hne Hs]. destruct w as [|c w]; [congruence|].
  simpl in *. now apply andb_true_iff in Hs as [-> _].
Qed.

Lemma single_spaced_word (w rest : string) :
  App.solid w = true -> single_spaced (w ++ rest) = single_spaced rest.
Proof.
  induction w as [|c w IH]; simpl; intros H; [reflexivity|].
  apply andb_true_iff in H as [Hc Hw]. apply negb_true_iff in Hc.
  now rewrite Hc, IH.
Qed.

Lemma join_words_spaced (w : string) (ws : list string) :
  Forall a_word (w :: ws) ->
  head_solid (PyStr.join " " (w :: ws)) = true
  /\ single_spaced (PyStr.join " " (w :: ws)) = true.
Proof.
  revert w. induction ws as [|w2 ws IH]; intros w H;
    inversion H as [|? ? Hw Hws]; subst.
  - simpl. rewrite <- (append_empty_r w).
    split; [now apply head_solid_word|].
    destruct Hw as [_ Hw]. now rewrite single_spaced_word.
  - destruct (IH w2 Hws) as [Hhead Hsingle].
    change (PyStr.join " " (w :: w2 :: ws))
      with (w ++ String " " (PyStr.join " " (w2 :: ws))).
    split; [now apply head_solid_word|].
    destruct Hw as [_ Hw]. rewrite single_spaced_word by exact Hw.
    cbn [single_spaced]. change (PyChar.isspace " ") with true.
    cbv iota. now rewrite Hhead, Hsingle.
Qed.

(** X3: a preprocessed text is empty or is words separated by one plain
    space each: it starts with a character that is not whitespace, and
    every whitespace character in it is a space followed by a character
    that is not whitespace. *)
Theorem preprocess_text_well_spaced (text : string) :
  well_spaced (preprocess_text text) = true.
Proof.
  unfold well_spaced, preprocess_text.
  destruct text as [|c text]; [reflexivity|]. cbn [PyStr.is_empty].
  pose proof (split_ws_words (String c text)) as H.
  destruct (PyStr.split_ws (String c text)) as [|w ws]; [reflexivity|].
  destruct (join_words_spaced w ws H) as [-> ->]. apply orb_true_r.
Qed.

Lemma of_rev_length (cur : list ascii) :
  String.length (PyStr.of_rev cur) = List.length cur.
Proof.
  unfold PyStr.of_rev. rewrite <- (length_rev cur).
  generalize (rev cur) as l.
  induction l as [|c l IH]; simpl; [reflexivity|now rewrite IH].
Qed.

Lemma join_cons_length (sep w : string) (ws : list string) :
  String.length (PyStr.join sep (w :: ws))
  = String.length w
    + match ws with
      | [] => 0
      | _ :: _ => String.length sep + String.length (PyStr.join sep ws)
      end.
Proof.
  destruct ws as [|w2 ws]; [simpl; lia|].
  change (PyStr.join sep (w :: w2 :: ws))
    with (w ++ sep ++ PyStr.join sep (w2 :: ws)).
  now rewrite !length_append.
Qed.

Lemma join_split_length (s : string) (cur : list ascii) :
  String.length (PyStr.join " " (PyStr.split_ws_from cur s))
  <= List.length cur + String.length s.
Proof.
  revert cur. induction s as [|c s IH]; intros cur.
  - destruct cur as [|d cur]; [simpl; lia|].
    cbn [PyStr.split_ws_from PyStr.flush PyStr.join].
    rewrite of_rev_length. simpl. lia.
  - cbn [PyStr.split_ws_from]. destruct (PyChar.isspace c).
    + specialize (IH []). destruct cur as [|d cur].
      * cbn [PyStr.flush]. simpl in *. lia.
      * cbn [PyStr.flush]. rewrite join_cons_length, of_rev_length.
        destruct (PyStr.split_ws_from [] s); simpl in *; lia.
    + specialize (IH (c :: cur)). simpl in *. lia.
Qed.

(** X4: the preprocessing never lengthens a text, so the character count
    of the record is at most the length of the input. *)
Theorem character_count_at_most_input_length
        (E : env) (text filename : string) (s : session) :
  exists metadata count,
    returned (generate_basic_metadata_from_text E text filename) s
    = Some metadata
    /\ get_field metadata "content_analysis" "character_count"
       = Some (PInt (Z.of_nat count))
    /\ count = PyStr.len (preprocess_text text)
    /\ count <= PyStr.len text.
Proof.
  rewrite generate_returns, clean_preprocess. eexists. eexists.
  split; [reflexivity|]. split; [reflexivity|]. split; [reflexivity|].
  unfold preprocess_text, PyStr.len, PyStr.split_ws.
  destruct text as [|c text]; [simpl; lia|]. cbn [PyStr.is_empty].
  pose proof (join_split_length (String c text) []) as H. simpl in *. lia.
Qed.

Lemma split_ws_blank (s : string) :
  blank s = true -> PyStr.split_ws_from [] s = [].
Proof.
  induction s as [|c s IH]; simpl; [reflexivity|]. intros H.
  apply andb_true_iff in H as [-> H]. now apply IH.
Qed.

Lemma split_ws_not_blank (s : string) :
  blank s = false ->
  exists w ws, PyStr.split_ws_from [] s = w :: ws /\ w <> "".
Proof.
  induction s as [|c s IH]; simpl; [discriminate|]. intros H.
  destruct (PyChar.isspace c).
  - now apply IH.
  - apply split_ws_from_open.
Qed.

(** The preprocessing empties exactly the texts made of whitespace. *)
Lemma preprocess_empty_iff_blank (text : string) :
  PyStr.is_empty (preprocess_text text) = blank text.
Proof.
  unfold preprocess_text, PyStr.split_ws.
  destruct text as [|c text]; [reflexivity|]. cbn [PyStr.is_empty].
  destruct (blank (String c text)) eqn:Hb.
  - now rewrite split_ws_blank.
  - destruct (split_ws_not_blank _ Hb) as (w & ws & -> & Hw).
    apply is_empty_false. now apply join_head_nonempty.
Qed.

(** X5: a text made only of whitespace gets the record of the empty text:
    no word, no character, type "Unknown", the fixed summary, no topic, no
    entity and the confidence 0.1. *)
Theorem blank_text_like_empty_text
        (E : env) (text filename : string) (s : session) :
  blank text = true ->
  returned (generate_basic_metadata_from_text E text filename) s
  = returned (generate_basic_metadata_from_text E "" filename) s
  /\ exists metadata,
      returned (generate_basic_metadata_from_text E text filename) s
      = Some metadata
      /\ get_field metadata "content_analysis" "document_type"
         = Some (PStr "Unknown")
      /\ get_field metadata "semantic_data" "key_topics" = Some (PList [])
      /\ get_field metadata "technical_metadata" "confidence_score"
         = Some (PFloat float_0_1).
Proof.
  intros Hb. rewrite !generate_returns, !clean_preprocess.
  pose proof (preprocess_empty_iff_blank text) as He. rewrite Hb in He.
  apply is_empty_true in He. rewrite He.
  split; [reflexivity|]. eexists. split; [reflexivity|].
  repeat split; reflexivity.
Qed.

Lemma blank_text_like_empty_text_witness :
  blank (String " " (String "009" (String "010" ""))) = true
  /\ returned
       (generate_basic_metadata_from_text
          bare_env (String " " (String "009" (String "010" ""))) "b.txt")
       fresh_session
     = returned (generate_basic_metadata_from_text bare_env "" "b.txt")
                fresh_session.
Proof.
  split; [reflexivity|].
  exact (proj1 (blank_text_like_empty_text
                  bare_env (String " " (String "009" (String "010" "")))
                  "b.txt" fresh_session eq_refl)).
Defined.

(** ** Readability *)

Lemma lstrip_not_blank (s : string) :
  blank s = false ->
  exists c r,
    PyStr.lstrip_by PyChar.isspace s = String c r
    /\ PyChar.isspace c = false.
Proof.
  induction s as [|c s IH]; simpl; [discriminate|]. intros H.
  destruct (PyChar.isspace c) eqn:Hc.
  - now apply IH.
  - now exists c, s.
Qed.

Lemma drop_while_keeps_last (p : ascii -> bool) (l : list ascii) (c : ascii) :
  p c = false -> PyStr.drop_while p (l ++ [c]) <> [].
Proof.
  intros Hc. induction l as [|d l IH]; simpl.
  - rewrite Hc. discriminate.
  - destruct (p d); [exact IH|discriminate].
Qed.

(** Stripping leaves something of every text that is not blank. *)
Lemma strip_not_blank (s : string) :
  blank s = false -> PyStr.strip s <> "".
Proof.
  intros H. unfold PyStr.strip, PyStr.strip_by, PyStr.rstrip_by.
  destruct (lstrip_not_blank s H) as (c & r & -> & Hc).
  simpl.
  pose proof (drop_while_keeps_last PyChar.isspace
                (rev (list_ascii_of_string r)) c Hc) as Hd.
  destruct (PyStr.drop_while PyChar.isspace
              (rev (list_ascii_of_string r) ++ [c])) as [|d l];
    [congruence|apply of_rev_cons].
Qed.

Lemma head_solid_not_blank (s : string) :
  head_solid s = true -> blank s = false.
Proof.
  destruct s as [|c s]; simpl; [discriminate|].
  intros H. apply negb_true_iff in H. now rewrite H.
Qed.

Lemma preprocess_not_blank (text : string) :
  blank text = false -> blank (preprocess_text text) = false.
Proof.
  intros Hb. apply head_solid_not_blank.
  unfold preprocess_text, PyStr.split_ws.
  destruct text as [|c text]; [discriminate|]. cbn [PyStr.is_empty].
  pose proof (split_ws_words (String c text)) as Hw.
  unfold PyStr.split_ws in Hw.
  destruct (split_ws_not_blank _ Hb) as (w & ws & Heq & _).
  rewrite Heq in *. now apply join_words_spaced.
Qed.

(** X6: the readability score of the record is the score the library gives
    for the preprocessed text, as it is, when textstat is installed, the
    input is not blank and the library returns; it is the integer 0 in
    every other case: no library, a blank input, or a library that
    raises. *)
Theorem readability_score_passed_through
        (E : env) (text filename : string) (s : session) :
  exists metadata,
    returned (generate_basic_metadata_from_text E text filename) s
    = Some metadata
    /\ get_field metadata "content_analysis" "readability_score"
       = Some
           match textstat E with
           | None => PInt 0
           | Some flesch_reading_ease =>
               if blank text then PInt 0
               else
                 match flesch_reading_ease (preprocess_text text) with
                 | Ok score => PFloat score
                 | Raise _ => PInt 0
                 end
           end.
Proof.
  rewrite generate_returns, clean_preprocess. eexists.
  split; [reflexivity|].
  cbn [get_field filled_schema getitem String.eqb Ascii.eqb Bool.eqb].
  unfold readability_of. destruct (textstat E) as [flesch|]; [|reflexivity].
  rewrite preprocess_empty_iff_blank.
  destruct (blank text) eqn:Hb; [reflexivity|]. cbn [negb andb].
  pose proof (preprocess_not_blank text Hb) as Hb'.
  apply strip_not_blank in Hb'.
  destruct (PyStr.strip (preprocess_text text)) as [|c r]; [congruence|].
  reflexivity.
Qed.

(** ** Classification and letter case *)

Lemma lower_char_idempotent (c : ascii) :
  PyChar.lower (PyChar.lower c) = PyChar.lower c.
Proof. destruct c as [[] [] [] [] [] [] [] []]; reflexivity. Qed.

Lemma isspace_lower_char (c : ascii) :
  PyChar.isspace (PyChar.lower c) = PyChar.isspace c.
Proof. destruct c as [[] [] [] [] [] [] [] []]; reflexivity. Qed.

Lemma lower_idempotent (s : string) :
  PyStr.lower (PyStr.lower s) = PyStr.lower s.
Proof.
  induction s as [|c s IH]; simpl; [reflexivity|].
  now rewrite lower_char_idempotent, IH.
Qed.

(** Lowering a text keeps the number of its words. *)
Lemma split_ws_from_lower (s : string) (cur cur' : list ascii) :
  List.length cur = List.length cur' ->
  List.length (PyStr.split_ws_from cur' (PyStr.lower s))
  = List.length (PyStr.split_ws_from cur s).
Proof.
  revert cur cur'. induction s as [|c s IH]; intros cur cur' H; simpl.
  - destruct cur, cur'; simpl in *; congruence.
  - rewrite isspace_lower_char. destruct (PyChar.isspace c).
    + specialize (IH [] [] eq_refl).
      destruct cur, cur'; simpl in *; congruence.
    + apply IH. simpl. now rewrite H.
Qed.

(** The label of a text is the label of its lowercased form. *)
Lemma classify_lower (text : string) :
  classify_document_type (PyStr.lower text) = classify_document_type text.
Proof.
  unfold classify_document_type, PyStr.split_ws.
  rewrite lower_idempotent, (split_ws_from_lower text [] [] eq_refl).
  destruct text; reflexivity.
Qed.

(** X7: the classification does not look at letter case: two texts with
    the same lowercased form get the same label. *)
Theorem classification_ignores_case (text1 text2 : string) :
  PyStr.lower text1 = PyStr.lower text2 ->
  classify_document_type text1 = classify_document_type text2.
Proof.
  intros H. now rewrite <- (classify_lower text1), H, classify_lower.
Qed.

Lemma classification_ignores_case_witness :
  PyStr.lower "The MARKET Report" = PyStr.lower "the market report"
  /\ classify_document_type "The MARKET Report"
     = classify_document_type "the market report".
Proof.
  split; [reflexivity|].
  apply (classification_ignores_case
           "The MARKET Report" "the market report").
  reflexivity.
Defined.

(** ** Counting words *)

Lemma tally_count_one (c : Collections.counter) (w w' : string) :
  tally (Collections.count_one c w) w'
  = tally c w' + (if String.eqb w w' then 1 else 0).
Proof.
  induction c as [|[k n] c IH]; simpl.
  - reflexivity.
  - destruct (String.eqb_spec k w) as [->|Hkw]; simpl.
    + destruct (String.eqb w w'); lia.
    + rewrite IH. destruct (String.eqb_spec k w') as [->|Hkw'].
      * destruct (String.eqb_spec w w'); [congruence|lia].
      * reflexivity.
Qed.

(** A counter built from a list of words holds for each word the number of
    times it occurs. *)
Lemma tally_fold (ws : list string) (c : Collections.counter) (w : string) :
  tally (fold_left Collections.count_one ws c) w
  = tally c w + frequency ws w.
Proof.
  unfold frequency. revert c. induction ws as [|x ws IH]; intros c; simpl.
  - lia.
  - rewrite IH, tally_count_one.
    destruct (string_dec x w) as [->|Hne].
    + rewrite String.eqb_refl. lia.
    + destruct (String.eqb_spec x w); [congruence|lia].
Qed.

Lemma keys_count_one (c : Collections.counter) (w k : string) :
  In k (map fst (Collections.count_one c w)) <-> In k (map fst c) \/ k = w.
Proof.
  induction c as [|[k' n] c IH]; simpl.
  - split; intros [H|H]; auto; contradiction.
  - destruct (String.eqb_spec k' w) as [->|Hne]; simpl.
    + split; [intros [H|H]; auto|intros [[H|H]|H]; auto].
    + rewrite IH. tauto.
Qed.

Lemma keys_count_one_NoDup (c : Collections.counter) (w : string) :
  NoDup (map fst c) -> NoDup (map fst (Collections.count_one c w)).
Proof.
  induction c as [|[k n] c IH]; simpl; intros H.
  - constructor; [tauto|constructor].
  - inversion H as [|? ? Hk Hc]; subst.
    destruct (String.eqb_spec k w) as [->|Hne]; simpl.
    + now constructor.
    + constructor; [|now apply IH].
      intros Hin. apply keys_count_one in Hin as [Hin|Heq];
        [contradiction|congruence].
Qed.

Lemma keys_fold (ws : list string) (c : Collections.counter) :
  NoDup (map fst c) ->
  NoDup (map fst (fold_left Collections.count_one ws c))
  /\ forall k, In k (map fst (fold_left Collections.count_one ws c))
               <-> In k (map fst c) \/ In k ws.
Proof.
  revert c. induction ws as [|x ws IH]; intros c H; simpl.
  - split; [exact H|]. intros k. tauto.
  - destruct (IH _ (keys_count_one_NoDup c x H)) as [Hnd Hin].
    split; [exact Hnd|]. intros k. rewrite Hin, keys_count_one.
    intuition congruence.
Qed.

Lemma tally_of_entry (c : Collections.counter) (k : string) (n : nat) :
  NoDup (map fst c) -> In (k, n) c -> tally c k = n.
Proof.
  induction c as [|[k' n'] c IH]; simpl; intros Hnd Hin;
    [contradiction|].
  inversion Hnd as [|? ? Hk Hc]; subst. destruct Hin as [Heq|Hin].
  - injection Heq as -> ->. now rewrite String.eqb_refl.
  - destruct (String.eqb_spec k' k) as [->|Hne]; [|now apply IH].
    exfalso. apply Hk. now apply (in_map fst) in Hin.
Qed.

(** Every entry of a counter holds the frequency of its word. *)
Lemma Counter_entry (ws : list string) (k : string) (n : nat) :
  In (k, n) (Collections.Counter ws) -> n = frequency ws k /\ In k ws.
Proof.
  unfold Collections.Counter. intros Hin.
  destruct (keys_fold ws [] (NoDup_nil _)) as [Hnd Hkeys].
  split.
  - rewrite <- (tally_of_entry _ k n Hnd Hin). now rewrite tally_fold.
  - apply (in_map fst) in Hin. apply Hkeys in Hin as [[]|H]. exact H.
Qed.

Lemma Counter_keys (ws : list string) :
  NoDup (map fst (Collections.Counter ws))
  /\ forall k, In k (map fst (Collections.Counter ws)) <-> In k ws.
Proof.
  destruct (keys_fold ws [] (NoDup_nil _)) as [Hnd Hkeys].
  split; [exact Hnd|]. intros k. unfold Collections.Counter.
  rewrite Hkeys. simpl. tauto.
Qed.

(** ** Ranking by count *)

Lemma place_Permutation (x : string * nat) (l : Collections.counter) :
  Permutation (Collections.place x l) (x :: l).
Proof.
  induction l as [|y l IH]; simpl; [reflexivity|].
  destruct (Nat.leb (snd y) (snd x)); [reflexivity|].
  rewrite IH. apply perm_swap.
Qed.

Lemma by_count_Permutation (c : Collections.counter) :
  Permutation (Collections.by_count c) c.
Proof.
  unfold Collections.by_count. induction c as [|x c IH]; simpl;
    [reflexivity|].
  rewrite place_Permutation. now constructor.
Qed.

Lemma place_Sorted (x : string * nat) (l : Collections.counter) :
  Sorted outranks l -> Sorted outranks (Collections.place x l).
Proof.
  induction l as [|y l IH]; simpl; intros H.
  - repeat constructor.
  - destruct (Nat.leb_spec (snd y) (snd x)) as [Hle|Hlt].
    + constructor; [exact H|]. constructor. exact Hle.
    + inversion H as [|? ? Hl Hhd]; subst.
      constructor; [now apply IH|].
      destruct l as [|z l]; simpl.
      * constructor. unfold outranks. lia.
      * destruct (Nat.leb (snd z) (snd x)); constructor.
        -- unfold outranks. lia.
        -- now inversion Hhd.
Qed.

Lemma by_count_sorted (c : Collections.counter) :
  StronglySorted outranks (Collections.by_count c).
Proof.
  apply Sorted_StronglySorted.
  - intros a b d Hab Hbd. unfold outranks in *. lia.
  - unfold Collections.by_count. induction c as [|x c IH]; simpl;
      [constructor|now apply place_Sorted].
Qed.

Lemma StronglySorted_split {A} (R : A -> A -> Prop) (l1 l2 : list A) :
  StronglySorted R (l1 ++ l2) ->
  StronglySorted R l1
  /\ forall a b, In a l1 -> In b l2 -> R a b.
Proof.
  induction l1 as [|x l1 IH]; simpl; intros H.
  - split; [constructor|]. intros a b [].
  - inversion H as [|? ? Hl Hx]; subst. destruct (IH Hl) as [Hs Hr].
    rewrite Forall_forall in Hx. split.
    + constructor; [exact Hs|]. apply Forall_forall. intros y Hy.
      apply Hx, in_or_app. now left.
    + intros a b [<-|Ha] Hb; [|now apply Hr].
      apply Hx, in_or_app. now right.
Qed.

(** ** Key topics of a record *)

(** The key topics of the record are chosen from the cleaned words of the
    input itself. *)
Lemma key_topics_of_input (text : string) :
  key_topics_of (clean text) (words_of (clean text))
  = map fst (Collections.most_common
               5 (Collections.Counter (cleaned_words text))).
Proof.
  rewrite clean_preprocess. unfold key_topics_of, words_of, cleaned_words.
  destruct (PyStr.is_empty (preprocess_text text)) eqn:He.
  - rewrite preprocess_empty_iff_blank in He.
    unfold PyStr.split_ws. now rewrite split_ws_blank.
  - now rewrite preprocess_keeps_words.
Qed.

Lemma lowercase_list (l : list ascii) :
  lowercase (string_of_list_ascii l)
  = forallb (fun c => Ascii.eqb (PyChar.lower c) c) l.
Proof. induction l as [|c l IH]; simpl; [reflexivity|now rewrite IH]. Qed.

Lemma lowercase_as_list (s : string) :
  lowercase s
  = forallb (fun c => Ascii.eqb (PyChar.lower c) c) (list_ascii_of_string s).
Proof. induction s as [|c s IH]; simpl; [reflexivity|now rewrite IH]. Qed.

Lemma forallb_drop_while (f p : ascii -> bool) (l : list ascii) :
  forallb f l = true -> forallb f (PyStr.drop_while p l) = true.
Proof.
  induction l as [|c l IH]; simpl; [reflexivity|]. intros H.
  apply andb_true_iff in H as [Hc Hl].
  destruct (p c); [now apply IH|]. simpl. now rewrite Hc, Hl.
Qed.

Lemma lowercase_strip_by (p : ascii -> bool) (s : string) :
  lowercase s = true -> lowercase (PyStr.strip_by p s) = true.
Proof.
  intros H. unfold PyStr.strip_by, PyStr.rstrip_by, PyStr.of_rev.
  rewrite lowercase_list, forallb_rev_eq. apply forallb_drop_while.
  rewrite forallb_rev_eq, <- lowercase_as_list.
  induction s as [|c s IH]; simpl in *; [reflexivity|].
  apply andb_true_iff in H as [Hc Hs].
  destruct (p c); [now apply IH|]. simpl. now rewrite Hc, Hs.
Qed.

Lemma lowercase_lower (s : string) : lowercase (PyStr.lower s) = true.
Proof.
  induction s as [|c s IH]; simpl; [reflexivity|].
  now rewrite lower_char_idempotent, Ascii.eqb_refl, IH.
Qed.

Lemma most_common_keys (n : nat) (ws : list string) :
  let topics :=
    map fst (Collections.most_common n (Collections.Counter ws)) in
  NoDup topics /\ forall topic, In topic topics -> In topic ws.
Proof.
  unfold Collections.most_common.
  destruct (Counter_keys ws) as [Hnd Hkeys].
  pose proof (by_count_Permutation (Collections.Counter ws)) as Hperm.
  cbv zeta. rewrite <- firstn_map. split.
  - apply NoDup_firstn_of.
    apply (Permutation_NoDup (Permutation_sym (Permutation_map fst Hperm))).
    exact Hnd.
  - intros topic Hin. apply Hkeys.
    apply (Permutation_in _ (Permutation_map fst Hperm)).
    rewrite <- (firstn_skipn n). apply in_or_app. now left.
Qed.

(** X8: the key topics of the record are pairwise distinct, and each is
    lowercase and is the lowercased form, stripped of outer punctuation, of
    a word of the input that is longer than three characters and whose
    lowercased form, before the stripping, is not a stop word. *)
Theorem key_topics_come_from_words
        (E : env) (text filename : string) (s : session) :
  exists metadata topics,
    returned (generate_basic_metadata_from_text E text filename) s
    = Some metadata
    /\ get_field metadata "semantic_data" "key_topics"
       = Some (str_list topics)
    /\ NoDup topics
    /\ forall topic,
        In topic topics ->
        lowercase topic = true
        /\ exists word,
            In word (PyStr.split_ws text)
            /\ topic = PyStr.strip_chars punctuation (PyStr.lower word)
            /\ 3 < PyStr.len word
            /\ PyStr.mem (PyStr.lower word) stop_words = false.
Proof.
  rewrite generate_returns. eexists. eexists.
  split; [reflexivity|]. split; [reflexivity|].
  rewrite key_topics_of_input.
  destruct (most_common_keys 5 (cleaned_words text)) as [Hnd Hin].
  split; [exact Hnd|]. intros topic Ht.
  apply Hin, words_clean_origin in Ht as (word & Hw & -> & Hlen & Hstop).
  split.
  - apply lowercase_strip_by, lowercase_lower.
  - now exists word.
Qed.

Lemma StronglySorted_by_frequency
      (ws : list string) (l : Collections.counter) :
  StronglySorted outranks l ->
  (forall k n, In (k, n) l -> n = frequency ws k) ->
  StronglySorted (fun a b => frequency ws b <= frequency ws a) (map fst l).
Proof.
  induction l as [|[k n] l IH]; simpl; intros Hs Hf; [constructor|].
  inversion Hs as [|? ? Hl Hk]; subst. constructor.
  - apply IH; [exact Hl|]. intros k' n' Hin. apply Hf. now right.
  - rewrite Forall_forall in *. intros k' Hin.
    apply in_map_iff in Hin as ([k2 n2] & <- & Hin). simpl.
    specialize (Hk _ Hin). unfold outranks in Hk. simpl in Hk.
    rewrite <- (Hf k n) by now left.
    rewrite <- (Hf k2 n2) by now right. exact Hk.
Qed.

(** X9: the key topics stand in order of frequency among the cleaned words,
    most frequent first; a cleaned word that is not a key topic is left out
    only when there are five topics already, none of them less frequent
    than it. *)
Theorem key_topics_ranked_by_frequency
        (E : env) (text filename : string) (s : session) :
  exists metadata topics,
    returned (generate_basic_metadata_from_text E text filename) s
    = Some metadata
    /\ get_field metadata "semantic_data" "key_topics"
       = Some (str_list topics)
    /\ StronglySorted
         (fun a b => frequency (cleaned_words text) b
                     <= frequency (cleaned_words text) a) topics
    /\ forall word,
        In word (cleaned_words text) ->
        ~ In word topics ->
        List.length topics = 5
        /\ forall topic,
            In topic topics ->
            frequency (cleaned_words text) word
            <= frequency (cleaned_words text) topic.
Proof.
  rewrite generate_returns. eexists. eexists.
  split; [reflexivity|]. split; [reflexivity|].
  rewrite key_topics_of_input. unfold Collections.most_common.
  set (ws := cleaned_words text).
  set (ranked := Collections.by_count (Collections.Counter ws)).
  pose proof (by_count_sorted (Collections.Counter ws)) as Hsorted.
  pose proof (by_count_Permutation (Collections.Counter ws)) as Hperm.
  fold ranked in Hsorted, Hperm.
  assert (Hentry : forall k n, In (k, n) ranked -> n = frequency ws k).
  { intros k n Hin. apply (Permutation_in _ Hperm) in Hin.
    now apply Counter_entry in Hin. }
  rewrite <- (firstn_skipn 5 ranked) in Hsorted.
  apply StronglySorted_split in Hsorted as [Hfirst Hrest].
  assert (Hentry5 : forall k n, In (k, n) (firstn 5 ranked) ->
                                n = frequency ws k).
  { intros k n Hin. apply Hentry. rewrite <- (firstn_skipn 5 ranked).
    apply in_or_app. now left. }
  split; [now apply StronglySorted_by_frequency|].
  intros word Hword Hout.
  destruct (Counter_keys ws) as [_ Hkeys].
  apply Hkeys, in_map_iff in Hword as ([k n] & Hk & Hin).
  simpl in Hk. subst k.
  apply (Permutation_in _ (Permutation_sym Hperm)) in Hin.
  pose proof (Hentry _ _ Hin) as Hn.
  rewrite <- (firstn_skipn 5 ranked) in Hin.
  apply in_app_or in Hin as [Hin|Hin].
  { exfalso. apply Hout. now apply (in_map fst) in Hin. }
  split.
  - rewrite length_map. apply firstn_length_le.
    destruct (Nat.le_gt_cases 5 (List.length ranked)) as [Hle|Hlt];
      [exact Hle|].
    rewrite skipn_all2 in Hin by lia. destruct Hin.
  - intros topic Ht. apply in_map_iff in Ht as ([k2 n2] & <- & Ht).
    specialize (Hrest _ _ Ht Hin). unfold outranks in Hrest.
    simpl in *. rewrite <- Hn, <- (Hentry5 k2 n2 Ht). exact Hrest.
Qed.

(** ** More on the summary *)

Lemma prefix_append (a b : string) : String.prefix a (a ++ b) = true.
Proof.
  induction a as [|c a IH]; simpl; [now destruct b|].
  destruct (ascii_dec c c); [exact IH|congruence].
Qed.


Lemma append_nonempty_r (a b : string) : b <> "" -> a ++ b <> "".
Proof. destruct a; simpl; [tauto|discriminate]. Qed.



Lemma take_nonempty (n : nat) (s : string) :
  s <> "" -> PyStr.take (S n) s <> "".
Proof. destruct s; simpl; [tauto|discriminate]. Qed.

(** X11: the summary of a record is never empty: a blank input gets the
    fixed message and every other input a summary with text in it. *)
Theorem summary_never_empty
        (E : env) (text filename : string) (s : session) :
  exists metadata summary,
    returned (generate_basic_metadata_from_text E text filename) s
    = Some metadata
    /\ get_field metadata "semantic_data" "summary" = Some (PStr summary)
    /\ summary <> ""
    /\ (blank text = true -> summary = "No text content extracted").
Proof.
  rewrite generate_returns, clean_preprocess.
  eexists. eexists. split; [reflexivity|]. split; [reflexivity|].
  split.
  - unfold summary_of.
    destruct (PyStr.is_empty (preprocess_text text)) eqn:He; [discriminate|].
    apply is_empty_false in He.
    destruct (sentences_of (preprocess_text text)) as [|first others].
    + pose proof (take_nonempty 199 _ He) as Ht.
      destruct (Nat.ltb 200 _); [now apply append_nonempty_r|exact Ht].
    + assert (Hj : PyStr.join ". " (firstn 2 (first :: others)) ++ "."
                   <> "") by now apply append_nonempty_r.
      destruct (Nat.ltb 200 _); [now apply append_nonempty_r|exact Hj].
  - intros Hb. rewrite <- preprocess_empty_iff_blank in Hb.
    unfold summary_of. now rewrite Hb.
Qed.

(** ** What the scans return *)

Lemma all_chars_append (q : ascii -> bool) (a b : string) :
  all_chars q (a ++ b) = (all_chars q a && all_chars q b)%bool.
Proof.
  induction a as [|c a IH]; simpl; [reflexivity|].
  now rewrite IH, andb_assoc.
Qed.

(** What a pattern passes is made of the characters of its classes. *)
Lemma run_passes_within {X : Type} (q : ascii -> bool) (r : Regex.regex) :
  within q r ->
  forall (k : @Regex.position_fn X) prev s x,
    Regex.run r k prev s = Some x ->
    exists passed prev' s',
      s = passed ++ s' /\ k prev' s' = Some x
      /\ all_chars q passed = true.
Proof.
  induction r as [|p|a IHa b IHb|a IHa b IHb|a IHa|];
    intros Hq k prev s x H; simpl in H, Hq.
  - now exists "", prev, s.
  - destruct s as [|c s]; [discriminate|].
    destruct (p c) eqn:Hp; [|discriminate].
    exists (String c ""), (Some c), s. simpl. now rewrite (Hq c Hp).
  - destruct Hq as [Hqa Hqb].
    apply (IHa Hqa) in H as (p1 & prev1 & s1 & -> & H & Hp1).
    apply (IHb Hqb) in H as (p2 & prev2 & s2 & -> & H & Hp2).
    exists (p1 ++ p2), prev2, s2. rewrite append_assoc3, all_chars_append.
    now rewrite Hp1, Hp2.
  - destruct Hq as [Hqa Hqb].
    destruct (Regex.run a k prev s) as [y|] eqn:Ha.
    + injection H as ->. now apply (IHa Hqa) in Ha.
    + now apply (IHb Hqb) in H.
  - remember (String.length s) as n eqn:Hn. clear Hn.
    revert prev s H. induction n as [|n IHn]; intros prev s H; simpl in H.
    + now exists "", prev, s.
    + match type of H with
      | match ?body with _ => _ end = _ => destruct body as [y|] eqn:Ha
      end.
      * injection H as ->.
        apply (IHa Hq) in Ha as (p1 & prev1 & s1 & -> & Ha & Hp1).
        destruct (Nat.ltb _ _); [|discriminate].
        apply IHn in Ha as (p2 & prev2 & s2 & -> & Ha & Hp2).
        exists (p1 ++ p2), prev2, s2.
        rewrite append_assoc3, all_chars_append. now rewrite Hp1, Hp2.
      * now exists "", prev, s.
  - destruct (Regex.at_boundary prev s); [|discriminate].
    now exists "", prev, s.
Qed.

(** A pattern that opens with a class passes a character of it first. *)
Lemma run_opens_with {X : Type} (q : ascii -> bool) (r : Regex.regex) :
  opens_with q r ->
  forall (k : @Regex.position_fn X) prev s x,
    Regex.run r k prev s = Some x ->
    exists c passed, first_char q (String c passed) = true
                     /\ exists prev' s',
                         s = String c passed ++ s' /\ k prev' s' = Some x.
Proof.
  induction r as [|p|a IHa b IHb|a IHa b IHb|a IHa|];
    intros Hq k prev s x H; simpl in Hq; try contradiction.
  - simpl in H. destruct s as [|c s]; [discriminate|].
    destruct (p c) eqn:Hp; [|discriminate].
    exists c, "". simpl. split; [now apply Hq|]. now exists (Some c), s.
  - assert (Hgen : opens_with q a ->
                   exists c passed,
                     first_char q (String c passed) = true
                     /\ exists prev' s',
                         s = String c passed ++ s' /\ k prev' s' = Some x).
    { intros Ha. simpl in H.
      apply (IHa Ha) in H as (c & p1 & Hc & prev1 & s1 & -> & H).
      apply run_reaches in H as (p2 & prev2 & s2 & -> & H).
      exists c, (p1 ++ p2). split; [exact Hc|].
      exists prev2, s2. simpl. now rewrite append_assoc3. }
    destruct a; try (now apply Hgen).
    simpl in H. destruct (Regex.at_boundary prev s); [|discriminate].
    now apply (IHb Hq) in H.
  - destruct Hq as [Hqa Hqb]. simpl in H.
    destruct (Regex.run a k prev s) as [y|] eqn:Ha.
    + injection H as ->. now apply (IHa Hqa) in Ha.
    + now apply (IHb Hqb) in H.
Qed.

(** Every match the scan returns is what the pattern passed at some
    position of the text. *)
Lemma scan_matches (r : Regex.regex) (s : string) :
  forall skip prev m,
    In m (Regex.scan r skip prev s) ->
    exists before prev' rest,
      s = before ++ m ++ rest
      /\ Regex.match_at r prev' (m ++ rest) = Some rest.
Proof.
  assert (Hhere : forall prev s rest,
             Regex.match_at r prev s = Some rest ->
             s = PyStr.take (String.length s - String.length rest) s
                 ++ rest).
  { intros prev s0 rest H. unfold Regex.match_at in H.
    apply run_reaches in H as (passed & prev' & s' & -> & H).
    injection H as ->. rewrite length_append.
    replace (String.length passed + String.length rest
             - String.length rest) with (String.length passed) by lia.
    now rewrite take_append. }
  induction s as [|c s IH]; intros skip prev m Hin.
  - simpl in Hin. destruct skip; [|contradiction].
    destruct (Regex.match_at r prev "") as [rest|] eqn:Hm; [|contradiction].
    destruct Hin as [<-|[]]. exists "", prev, "".
    pose proof (Hhere _ _ _ Hm) as Heq.
    destruct rest; [|discriminate]. now split.
  - cbn [Regex.scan] in Hin.
    assert (Hnext : forall skip' prev',
               In m (Regex.scan r skip' prev' s) ->
               exists before prev'' rest,
                 String c s = before ++ m ++ rest
                 /\ Regex.match_at r prev'' (m ++ rest) = Some rest).
    { intros skip' prev' H.
      apply IH in H as (before & prev'' & rest & -> & H).
      now exists (String c before), prev'', rest. }
    destruct skip as [|skip]; [|now apply Hnext in Hin].
    destruct (Regex.match_at r prev (String c s)) as [rest|] eqn:Hm;
      [|now apply Hnext in Hin].
    destruct Hin as [<-|Hin]; [|now apply Hnext in Hin].
    pose proof (Hhere _ _ _ Hm) as Heq.
    exists "", prev, rest. split; [exact Heq|].
    rewrite <- Heq. exact Hm.
Qed.

Lemma contains_prefix (m s : string) :
  String.prefix m s = true -> PyStr.contains m s = true.
Proof. intros H. destruct s; cbn [PyStr.contains]; now rewrite H. Qed.

Lemma contains_inside (m before rest : string) :
  PyStr.contains m (before ++ m ++ rest) = true.
Proof.
  induction before as [|c before IH].
  - change ("" ++ m ++ rest) with (m ++ rest).
    apply contains_prefix, prefix_append.
  - cbn [append PyStr.contains]. rewrite IH. apply orb_true_r.
Qed.

(** Every match of [re.findall] occurs in the text. *)
Lemma findall_occurs (r : Regex.regex) (text m : string) :
  In m (Regex.findall r text) -> PyStr.contains m text = true.
Proof.
  intros H. apply scan_matches in H as (before & prev & rest & -> & _).
  apply contains_inside.
Qed.

Lemma append_cancel_r (a b c : string) : a ++ c = b ++ c -> a = b.
Proof.
  revert b. induction a as [|x a IH]; intros [|y b] H; simpl in H.
  - reflexivity.
  - apply (f_equal String.length) in H. simpl in H.
    rewrite length_append in H. lia.
  - apply (f_equal String.length) in H. simpl in H.
    rewrite length_append in H. lia.
  - injection H as -> H. f_equal. now apply IH.
Qed.

Lemma matches_within (q : ascii -> bool) (r : Regex.regex)
      (text m : string) :
  within q r -> In m (Regex.findall r text) -> all_chars q m = true.
Proof.
  intros Hq H. apply scan_matches in H as (before & prev & rest & _ & H).
  apply (run_passes_within q r Hq) in H
    as (passed & prev' & s' & Heq & Hk & Hp).
  injection Hk as ->. apply append_cancel_r in Heq. now subst.
Qed.

Lemma matches_open_with (q : ascii -> bool) (r : Regex.regex)
      (text m : string) :
  opens_with q r -> In m (Regex.findall r text) -> first_char q m = true.
Proof.
  intros Hq H. apply scan_matches in H as (before & prev & rest & _ & H).
  apply (run_opens_with q r Hq) in H
    as (c & passed & Hc & prev' & s' & Heq & Hk).
  injection Hk as ->. apply append_cancel_r in Heq. now subst.
Qed.

Lemma percent_matches_end (text m : string) :
  In m (Regex.findall Regex.percent_pattern text) ->
  last_of None m = Some "%"%char.
Proof.
  intros H. apply scan_matches in H as (before & prev & rest & _ & H).
  apply percent_match_shape in H as (passed & Heq & _).
  change (passed ++ String "%" rest) with (passed ++ "%" ++ rest) in Heq.
  rewrite <- append_assoc3 in Heq. apply append_cancel_r in Heq. subst m.
  generalize (@None ascii).
  induction passed as [|c passed IH]; intros prev'; simpl;
    [reflexivity|apply IH].
Qed.

Lemma In_firstn_of {A} (n : nat) (l : list A) (x : A) :
  In x (firstn n l) -> In x l.
Proof.
  intros H. rewrite <- (firstn_skipn n l). apply in_or_app. now left.
Qed.

(** The four entity lists of the record, whatever the text. *)
Lemma record_entity_lists
      (E : env) (text filename : string) (s : session) :
  exists metadata,
    returned (generate_basic_metadata_from_text E text filename) s
    = Some metadata
    /\ entity_list metadata "PERSON"
       = Some (str_list
                 (firstn 5 (list_of_set E
                    (Regex.findall Regex.capitalized_pattern
                                   (preprocess_text text)))))
    /\ entity_list metadata "ORG" = Some (PList [])
    /\ entity_list metadata "DATE"
       = Some (str_list
                 (firstn 3 (list_of_set E
                    (Regex.findall Regex.date_pattern
                                   (preprocess_text text)))))
    /\ entity_list metadata "PERCENT"
       = Some (str_list
                 (list_of_set E
                    (Regex.findall Regex.percent_pattern
                                   (preprocess_text text)))).
Proof.
  rewrite generate_returns, clean_preprocess. eexists.
  split; [reflexivity|]. unfold entity_list, entities_of.
  destruct (PyStr.is_empty (preprocess_text text)) eqn:He.
  - apply is_empty_true in He. rewrite He.
    change (Regex.findall Regex.capitalized_pattern "") with (@nil string).
    change (Regex.findall Regex.date_pattern "") with (@nil string).
    change (Regex.findall Regex.percent_pattern "") with (@nil string).
    rewrite list_of_set_nil. repeat split; reflexivity.
  - repeat split; reflexivity.
Qed.

(** X12: every name, date and percentage of the record occurs in the
    preprocessed text as it stands there, and the list of organisations is
    always empty. *)
Theorem entities_occur_in_text
        (E : env) (text filename : string) (s : session) :
  exists metadata persons dates percents,
    returned (generate_basic_metadata_from_text E text filename) s
    = Some metadata
    /\ entity_list metadata "PERSON" = Some (str_list persons)
    /\ entity_list metadata "DATE" = Some (str_list dates)
    /\ entity_list metadata "PERCENT" = Some (str_list percents)
    /\ entity_list metadata "ORG" = Some (PList [])
    /\ forall m,
        In m (persons ++ dates ++ percents)%list ->
        PyStr.contains m (preprocess_text text) = true.
Proof.
  destruct (record_entity_lists E text filename s)
    as (metadata & Hr & Hp & Ho & Hd & Hc).
  exists metadata. eexists. eexists. eexists.
  split; [exact Hr|]. split; [exact Hp|]. split; [exact Hd|].
  split; [exact Hc|]. split; [exact Ho|].
  intros m Hin. apply in_app_or in Hin as [Hin|Hin];
    [|apply in_app_or in Hin as [Hin|Hin]].
  - apply In_firstn_of, list_of_set_In in Hin. now apply findall_occurs in Hin.
  - apply In_firstn_of, list_of_set_In in Hin. now apply findall_occurs in Hin.
  - apply list_of_set_In in Hin. now apply findall_occurs in Hin.
Qed.

Lemma capitalized_within : within letter_or_space Regex.capitalized_pattern.
Proof.
  simpl. unfold letter_or_space.
  repeat split; intros c ->; rewrite ?orb_true_r; reflexivity.
Qed.

Lemma date_within : within date_char Regex.date_pattern.
Proof.
  simpl. unfold date_char, Regex.digit, Regex.slash_or_dash.
  repeat split; intros c H; try (simpl in H; rewrite H; reflexivity);
    apply orb_true_iff in H as [->| ->]; rewrite ?orb_true_r; reflexivity.
Qed.

Lemma percent_within : within percent_char Regex.percent_pattern.
Proof.
  unfold Regex.percent_pattern.
  cbn [within Regex.cat Regex.plus Regex.opt Regex.lit Regex.digit].
  unfold percent_char.
  repeat split; intros c H; try (rewrite H; reflexivity);
    apply Ascii.eqb_eq in H; subst c; reflexivity.
Qed.

(** X13: every name of the record is made of the letters A to Z and a to z
    and of whitespace only, and starts with a capital letter. *)
Theorem person_entities_are_capitalized_words
        (E : env) (text filename : string) (s : session) :
  exists metadata persons,
    returned (generate_basic_metadata_from_text E text filename) s
    = Some metadata
    /\ entity_list metadata "PERSON" = Some (str_list persons)
    /\ forall m,
        In m persons ->
        all_chars letter_or_space m = true
        /\ first_char PyChar.is_AZ m = true.
Proof.
  destruct (record_entity_lists E text filename s)
    as (metadata & Hr & Hp & _).
  exists metadata. eexists. split; [exact Hr|]. split; [exact Hp|].
  intros m Hin. apply In_firstn_of, list_of_set_In in Hin. split.
  - exact (matches_within _ _ _ _ capitalized_within Hin).
  - apply (matches_open_with PyChar.is_AZ) in Hin; [exact Hin|].
    simpl. intros c H. exact H.
Qed.

(** X14: every date of the record is made of digits, slashes and dashes
    only, and starts with a digit. *)
Theorem date_entities_are_digits_and_separators
        (E : env) (text filename : string) (s : session) :
  exists metadata dates,
    returned (generate_basic_metadata_from_text E text filename) s
    = Some metadata
    /\ entity_list metadata "DATE" = Some (str_list dates)
    /\ forall m,
        In m dates ->
        all_chars date_char m = true
        /\ first_char PyChar.isdecimal m = true.
Proof.
  destruct (record_entity_lists E text filename s)
    as (metadata & Hr & _ & _ & Hd & _).
  exists metadata. eexists. split; [exact Hr|]. split; [exact Hd|].
  intros m Hin. apply In_firstn_of, list_of_set_In in Hin. split.
  - exact (matches_within _ _ _ _ date_within Hin).
  - apply (matches_open_with PyChar.isdecimal) in Hin; [exact Hin|].
    simpl. split; intros c H; exact H.
Qed.

(** X15: every percentage of the record is made of digits, full stops and
    percent signs only, starts with a digit and ends with a percent
    sign. *)
Theorem percent_entities_are_numbers_with_sign
        (E : env) (text filename : string) (s : session) :
  exists metadata percents,
    returned (generate_basic_metadata_from_text E text filename) s
    = Some metadata
    /\ entity_list metadata "PERCENT" = Some (str_list percents)
    /\ forall m,
        In m percents ->
        all_chars percent_char m = true
        /\ first_char PyChar.isdecimal m = true
        /\ last_of None m = Some "%"%char.
Proof.
  destruct (record_entity_lists E text filename s)
    as (metadata & Hr & _ & _ & _ & Hc).
  exists metadata. eexists. split; [exact Hr|]. split; [exact Hc|].
  intros m Hin. apply list_of_set_In in Hin. split; [|split].
  - exact (matches_within _ _ _ _ percent_within Hin).
  - apply (matches_open_with PyChar.isdecimal) in Hin; [exact Hin|].
    simpl. intros c H. exact H.
  - exact (percent_matches_end _ _ Hin).
Qed.

(** ** What the page is shown *)

(** The session after the generator: it is the session before, or, when the
    readability block met an [ImportError] and the warning had not been
    shown, that session with the warning added and the flag set. *)
Lemma generate_session (E : env) (text filename : string) (s : session) :
  snd (generate_basic_metadata_from_text E text filename s) = s
  \/ (textstat_warning_shown s = false
      /\ snd (generate_basic_metadata_from_text E text filename s)
         = warned s).
Proof.
  unfold generate_basic_metadata_from_text, readability_block.
  generalize (if PyStr.is_empty text then "" else preprocess_text text).
  intros t.
  generalize (if PyStr.is_empty t then [] else PyStr.split_ws t)
    (classify_document_type t) (summary_of t) (entities_of E t)
    (path_suffix E filename) (strftime E) (elapsed E).
  intros ws doc_type summary entities suffix date time.
  generalize (key_topics_of t ws)
    (negb (PyStr.is_empty t) && Nat.ltb 0 (PyStr.len (PyStr.strip t)))%bool
    (if PyStr.is_empty t then float_0_1 else float_0_8).
  intros topics scored confidence.
  destruct (textstat E) as [flesch|]; [destruct scored|];
    cbv [bind import ret lift try_except raise].
  - destruct (flesch t) as [score|[[] msg]]; try (left; reflexivity).
    destruct s as [[] sh]; [left|right]; now split.
  - left. reflexivity.
  - destruct s as [[] sh]; [left|right]; now split.
Qed.

Lemma generate_session_missing (E : env) (text filename : string)
      (s : session) :
  textstat E = None ->
  snd (generate_basic_metadata_from_text E text filename s)
  = if textstat_warning_shown s then s else warned s.
Proof.
  intros Hm.
  unfold generate_basic_metadata_from_text, readability_block.
  rewrite Hm.
  generalize (if PyStr.is_empty text then "" else preprocess_text text).
  intros t.
  generalize (if PyStr.is_empty t then [] else PyStr.split_ws t)
    (classify_document_type t) (summary_of t) (entities_of E t)
    (path_suffix E filename) (strftime E) (elapsed E).
  intros ws doc_type summary entities suffix date time.
  generalize (key_topics_of t ws)
    (if PyStr.is_empty t then float_0_1 else float_0_8).
  intros topics confidence.
  cbv [bind import ret lift try_except raise].
  destruct s as [[] sh]; reflexivity.
Qed.

(** X16: the generator shows at most the textstat warning: the session
    after a call is the session before it or that session with the one
    warning added and the flag set, and once the flag is set a call leaves
    the session as it is. *)
Theorem generator_shows_only_the_textstat_warning
        (E : env) (text filename : string) (s : session) :
  (snd (generate_basic_metadata_from_text E text filename s) = s
   \/ snd (generate_basic_metadata_from_text E text filename s) = warned s)
  /\ (textstat_warning_shown s = true ->
      snd (generate_basic_metadata_from_text E text filename s) = s).
Proof.
  destruct (generate_session E text filename s) as [H|[Hf H]].
  - split; [now left|now intros _].
  - split; [now right|]. intros Ht. congruence.
Qed.

(** X17: without textstat the warning is shown once in a session: the
    first call shows it, unless it was shown before, and leaves the flag
    set; a second call, whatever its text, shows nothing more. *)
Theorem textstat_warning_shown_once
        (E : env) (text1 filename1 text2 filename2 : string) (s : session) :
  textstat E = None ->
  let s1 := snd (generate_basic_metadata_from_text E text1 filename1 s) in
  let s2 := snd (generate_basic_metadata_from_text E text2 filename2 s1) in
  textstat_warning_shown s1 = true
  /\ shown s1
     = (shown s ++ if textstat_warning_shown s then []
                   else [textstat_warning])%list
  /\ s2 = s1.
Proof.
  intros Hm s1 s2. subst s1 s2. rewrite !generate_session_missing by exact Hm.
  destruct s as [[] sh]; simpl; repeat split; try reflexivity.
  now rewrite app_nil_r.
Qed.

Lemma textstat_warning_shown_once_witness :
  textstat bare_env = None
  /\ shown (snd (generate_basic_metadata_from_text
                   bare_env "second text" "b.txt"
                   (snd (generate_basic_metadata_from_text
                           bare_env "first text" "a.txt" fresh_session))))
     = [textstat_warning].
Proof.
  split; [reflexivity|].
  destruct (textstat_warning_shown_once
              bare_env "first text" "a.txt" "second text" "b.txt"
              fresh_session eq_refl) as (_ & H1 & H2).
  rewrite H2. exact H1.
Defined.

(** What an extractor does to the session, for a library and the two
    messages of the extractor. *)
Lemma extractor_session
      (library : option document_reader) (name warning note failure : string)
      (file_path : string) (s : session) :
  let run :=
    try_except
      (Py.bind (import name library) (fun reader =>
       Py.bind (lift (reader file_path)) (fun parts =>
       Py.bind (concat_lines parts) (fun text =>
       ret (PyStr.strip text)))))
      (fun e =>
         match exn_cls e with
         | ImportError => Py.bind (st_warning warning) (fun _ => ret note)
         | _ =>
             Py.bind (st_error (failure ++ exn_str e))
                     (fun _ => ret ("[" ++ failure ++ exn_str e ++ "]"))
         end) s in
  exists text messages,
    fst run = Ok text
    /\ textstat_warning_shown (snd run) = textstat_warning_shown s
    /\ shown (snd run) = (shown s ++ messages)%list
    /\ if extraction_succeeds library file_path then messages = []
       else diagnosed note text messages.
Proof.
  unfold extraction_succeeds, concat_lines, diagnosed.
  destruct library as [reader|]; cbv [try_except Py.bind import ret lift raise].
  - destruct (reader file_path) as [parts|e].
    + pose proof (concat_lines_from parts "" s) as H.
      cbv [Py.bind lift ret] in H.
      destruct (texts_of parts) as [texts|].
      * rewrite H. exists (PyStr.strip (lines texts)), []. simpl.
        now rewrite app_nil_r.
      * destruct H as [e ->]. destruct e as [[] msg]; simpl;
          eexists; eexists; repeat split; eexists;
          (split; [reflexivity|simpl; rewrite ?append_assoc3; reflexivity]).
    + destruct e as [[] msg]; simpl;
        eexists; eexists; repeat split; eexists;
          (split; [reflexivity|simpl; rewrite ?append_assoc3; reflexivity]).
  - simpl. eexists; eexists; repeat split; eexists;
          (split; [reflexivity|simpl; rewrite ?append_assoc3; reflexivity]).
Qed.

(** X18: an extractor shows nothing when it returns the text of the
    document, and exactly one message when it returns a diagnostic: a
    warning when the diagnostic is the note that the library is missing,
    and otherwise an error whose text is the diagnostic without its
    brackets; the warning flag of the session is left alone. *)
Theorem extractors_show_one_message_per_failure
        (E : env) (file_path : string) (s : session) :
  (exists text messages,
      fst (extract_pdf_text E file_path s) = Ok text
      /\ textstat_warning_shown (snd (extract_pdf_text E file_path s))
         = textstat_warning_shown s
      /\ shown (snd (extract_pdf_text E file_path s))
         = (shown s ++ messages)%list
      /\ if extraction_succeeds (PyPDF2 E) file_path then messages = []
         else diagnosed
                "[PDF extraction requires PyPDF2 library - install with: pip install PyPDF2]"
                text messages)
  /\ (exists text messages,
         fst (extract_docx_text E file_path s) = Ok text
         /\ textstat_warning_shown (snd (extract_docx_text E file_path s))
            = textstat_warning_shown s
         /\ shown (snd (extract_docx_text E file_path s))
            = (shown s ++ messages)%list
         /\ if extraction_succeeds (docx E) file_path then messages = []
            else diagnosed
                   "[DOCX extraction requires python-docx library - install with: pip install python-docx]"
                   text messages).
Proof.
  split.
  - exact (extractor_session (PyPDF2 E) "PyPDF2"
             "PDF extraction requires PyPDF2. Install with: pip install PyPDF2"
             "[PDF extraction requires PyPDF2 library - install with: pip install PyPDF2]"
             "PDF extraction failed: " file_path s).
  - exact (extractor_session (docx E) "docx"
             "DOCX extraction requires python-docx. Install with: pip install python-docx"
             "[DOCX extraction requires python-docx library - install with: pip install python-docx]"
             "DOCX extraction failed: " file_path s).
Qed.

(** X19: the record lists a percentage only for a text in which some
    percent sign is directly followed by a word character: when every
    percent sign of the preprocessed text is followed by a space, by
    punctuation or by the end, the list of percentages is empty. *)
Theorem percent_entities_need_word_after_sign
        (E : env) (text filename : string) (s : session) :
  percent_before_word (preprocess_text text) = false ->
  exists metadata,
    returned (generate_basic_metadata_from_text E text filename) s
    = Some metadata
    /\ entity_list metadata "PERCENT" = Some (PList []).
Proof.
  intros H.
  destruct (record_entity_lists E text filename s)
    as (metadata & Hr & _ & _ & _ & Hc).
  exists metadata. split; [exact Hr|].
  rewrite Hc, (percent_scan_needs_word_after _ H), list_of_set_nil.
  reflexivity.
Qed.

Lemma percent_entities_need_word_after_sign_witness :
  percent_before_word (preprocess_text "Sales grew 3.5% (up from 2%).")
  = false
  /\ exists metadata,
      returned
        (generate_basic_metadata_from_text
           bare_env "Sales grew 3.5% (up from 2%)." "s.txt") fresh_session
      = Some metadata
      /\ entity_list metadata "PERCENT" = Some (PList []).
Proof.
  split; [reflexivity|].
  exact (percent_entities_need_word_after_sign
           bare_env "Sales grew 3.5% (up from 2%)." "s.txt" fresh_session
           eq_refl).
Defined.

(** ** The dependency check *)

Import Main.


(** ** The upload *)

Lemma upload_text_returns
      (E : env) (name decoded tmp_file_path : string) (s : session) :
  exists text, fst (upload_text E name decoded tmp_file_path s) = Ok text.
Proof.
  unfold upload_text.
  destruct (endswith ".pdf" (PyStr.lower name)).
  - destruct (extractor_session (PyPDF2 E) "PyPDF2"
             "PDF extraction requires PyPDF2. Install with: pip install PyPDF2"
             "[PDF extraction requires PyPDF2 library - install with: pip install PyPDF2]"
             "PDF extraction failed: " tmp_file_path s)
      as (text & _ & H & _).
    now exists text.
  - destruct (endswith ".docx" (PyStr.lower name)).
    + destruct (extractor_session (docx E) "docx"
             "DOCX extraction requires python-docx. Install with: pip install python-docx"
             "[DOCX extraction requires python-docx library - install with: pip install python-docx]"
             "DOCX extraction failed: " tmp_file_path s)
        as (text & _ & H & _).
      now exists text.
    + now exists decoded.
Qed.

Lemma generate_ok (E : env) (text filename : string) (s : session) :
  exists metadata,
    fst (generate_basic_metadata_from_text E text filename s) = Ok metadata.
Proof.
  pose proof (generate_returns E text filename s) as H.
  unfold returned in H.
  destruct (fst (generate_basic_metadata_from_text E text filename s))
    as [metadata|e]; [now exists metadata|discriminate].
Qed.


(** X22: the record an upload displays is the record of the extracted
    text under the name of the upload, with the first 500 characters of
    that text as preview, and the page after the upload is the page the
    display left, with one more error message, built from the exception,
    when the display raised. *)
Theorem upload_displays_record_of_extracted_text
        (E : env) (display : pyval -> string -> M unit)
        (name decoded tmp_file_path : string) (w : world) :
  exists text metadata s1 s2,
    upload_text E name decoded tmp_file_path (page w) = (Ok text, s1)
    /\ generate_basic_metadata_from_text E text name s1 = (Ok metadata, s2)
    /\ PyStr.len (PyStr.take 500 text) <= 500
    /\ page (snd (process_upload E display name decoded
                                 (Ok tmp_file_path) w))
       = match display metadata (PyStr.take 500 text) s2 with
         | (Ok _, s3) => s3
         | (Raise e, s3) =>
             {| textstat_warning_shown := textstat_warning_shown s3;
                shown := (shown s3
                          ++ [Error ("Error processing file: "
                                     ++ exn_str e)])%list |}
         end.
Proof.
  destruct (upload_text_returns E name decoded tmp_file_path (page w))
    as [text Ht].
  destruct (upload_text E name decoded tmp_file_path (page w))
    as [r1 s1] eqn:H1.
  simpl in Ht. subst r1.
  destruct (generate_ok E text name s1) as [metadata Hm].
  destruct (generate_basic_metadata_from_text E text name s1)
    as [r2 s2] eqn:H2.
  simpl in Hm. subst r2.
  exists text, metadata, s1, s2.
  split; [reflexivity|]. split; [exact H2|].
  split; [apply take_length|].
  unfold process_upload, try_except, Py.bind.
  rewrite H1, H2.
  destruct (display metadata (PyStr.take 500 text) s2) as [[u|e] s3];
    reflexivity.
Qed.

(** ** Ties among key topics *)

Lemma place_In (x y : string * nat) (l : Collections.counter) :
  In y (Collections.place x l) -> y = x \/ In y l.
Proof.
  intros H. apply (Permutation_in _ (place_Permutation x l)) in H.
  destruct H as [H|H]; [left; congruence|now right].
Qed.

(** Placing an entry that comes before all the others in [Q] keeps the
    entries ranked by count, then by [Q]. *)
Lemma place_ranked (Q : string * nat -> string * nat -> Prop)
      (x : string * nat) (l : Collections.counter) :
  StronglySorted (entry_before Q) l ->
  (forall y, In y l -> Q x y) ->
  StronglySorted (entry_before Q) (Collections.place x l).
Proof.
  induction l as [|y l IH]; simpl; intros Hs Hq.
  - repeat constructor.
  - inversion Hs as [|? ? Hl Hy]; subst. rewrite Forall_forall in Hy.
    destruct (Nat.leb_spec (snd y) (snd x)) as [Hle|Hlt].
    + constructor; [exact Hs|]. apply Forall_forall.
      intros z [<-|Hz]; unfold entry_before.
      * destruct (Nat.eq_dec (snd x) (snd y)) as [He|Hne];
          [right; split; [exact He|apply Hq; now left]|left; lia].
      * specialize (Hy z Hz). unfold entry_before in Hy.
        destruct (Nat.eq_dec (snd x) (snd z)) as [He|Hne];
          [right; split; [exact He|apply Hq; now right]|left; lia].
    + constructor.
      * apply IH; [exact Hl|]. intros z Hz. apply Hq. now right.
      * apply Forall_forall. intros z Hz.
        apply place_In in Hz as [->|Hz]; [left; lia|now apply Hy].
Qed.

Lemma by_count_ranked (Q : string * nat -> string * nat -> Prop)
      (c : Collections.counter) :
  StronglySorted Q c ->
  StronglySorted (entry_before Q) (Collections.by_count c).
Proof.
  unfold Collections.by_count.
  induction c as [|x c IH]; simpl; intros Hs; [constructor|].
  inversion Hs as [|? ? Hc Hx]; subst. rewrite Forall_forall in Hx.
  apply place_ranked; [now apply IH|].
  intros y Hy. apply Hx.
  now apply (Permutation_in _ (by_count_Permutation c)).
Qed.

Lemma first_index_app_old (done : list string) (w k : string) :
  In k done -> first_index (done ++ [w]) k = first_index done k.
Proof.
  induction done as [|x done IH]; simpl; [tauto|]. intros [->|H].
  - now rewrite String.eqb_refl.
  - destruct (String.eqb x k); [reflexivity|]. now rewrite IH.
Qed.

Lemma first_index_app_new (done : list string) (w : string) :
  ~ In w done -> first_index (done ++ [w]) w = List.length done.
Proof.
  induction done as [|x done IH]; simpl; intros H.
  - now rewrite String.eqb_refl.
  - destruct (String.eqb_spec x w) as [->|Hne]; [tauto|].
    rewrite IH; tauto.
Qed.

Lemma first_index_old_bound (done : list string) (k : string) :
  In k done -> first_index done k < List.length done.
Proof.
  induction done as [|x done IH]; simpl; [tauto|]. intros H.
  destruct (String.eqb_spec x k) as [->|Hne]; [lia|].
  destruct H as [H|H]; [congruence|]. specialize (IH H). lia.
Qed.

Lemma keys_count_one_eq (c : Collections.counter) (w : string) :
  map fst (Collections.count_one c w)
  = if PyStr.mem w (map fst c) then map fst c
    else (map fst c ++ [w])%list.
Proof.
  unfold PyStr.mem. induction c as [|[k n] c IH]; simpl; [reflexivity|].
  rewrite (String.eqb_sym w k).
  destruct (String.eqb k w); simpl; [reflexivity|].
  rewrite IH. now destruct (existsb (String.eqb w) (map fst c)).
Qed.

Lemma StronglySorted_weaken {A} (R R' : A -> A -> Prop) (l : list A) :
  (forall a b, In a l -> In b l -> R a b -> R' a b) ->
  StronglySorted R l -> StronglySorted R' l.
Proof.
  induction l as [|x l IH]; intros Hw Hs; [constructor|].
  inversion Hs as [|? ? Hl Hx]; subst. constructor.
  - apply IH; [|exact Hl]. intros a b Ha Hb. apply Hw; now right.
  - rewrite Forall_forall in *. intros y Hy.
    apply Hw; [now left|now right|now apply Hx].
Qed.

Lemma StronglySorted_snoc {A} (R : A -> A -> Prop) (l : list A) (w : A) :
  StronglySorted R l -> Forall (fun a => R a w) l ->
  StronglySorted R (l ++ [w]).
Proof.
  induction l as [|x l IH]; simpl; intros Hs Hf.
  - repeat constructor.
  - inversion Hs as [|? ? Hl Hx]; subst.
    inversion Hf as [|? ? Hxw Hlw]; subst. constructor; [now apply IH|].
    apply Forall_app. split; [exact Hx|now constructor].
Qed.

(** The words of a counter stand in the order in which they were first
    seen. *)
Lemma Counter_order (todo done : list string) (c : Collections.counter) :
  StronglySorted (fun a b => first_index done a < first_index done b)
                 (map fst c) ->
  (forall k, In k (map fst c) <-> In k done) ->
  StronglySorted
    (fun a b => first_index (done ++ todo) a < first_index (done ++ todo) b)
    (map fst (fold_left Collections.count_one todo c)).
Proof.
  revert done c. induction todo as [|w todo IH]; intros done c Hs Hk; simpl.
  - now rewrite app_nil_r.
  - replace (done ++ w :: todo)%list with ((done ++ [w]) ++ todo)%list
      by now rewrite <- app_assoc.
    assert (Hold : StronglySorted
                     (fun a b => first_index (done ++ [w]) a
                                 < first_index (done ++ [w]) b)
                     (map fst c)).
    { apply (StronglySorted_weaken _ _ _) with (2 := Hs).
      intros a b Ha Hb Hab. apply Hk in Ha, Hb.
      now rewrite !first_index_app_old. }
    apply IH.
    + rewrite keys_count_one_eq.
      destruct (PyStr.mem w (map fst c)) eqn:Hm; [exact Hold|].
      assert (Hnew : ~ In w done).
      { intros H. apply Hk, mem_In in H. congruence. }
      apply StronglySorted_snoc; [exact Hold|].
      apply Forall_forall. intros a Ha. apply Hk in Ha.
      rewrite first_index_app_old, first_index_app_new by assumption.
      now apply first_index_old_bound.
    + intros k. rewrite keys_count_one, Hk, in_app_iff. simpl.
      intuition congruence.
Qed.

Lemma StronglySorted_on_keys
      (R : string -> string -> Prop) (c : Collections.counter) :
  StronglySorted R (map fst c) ->
  StronglySorted (fun a b => R (fst a) (fst b)) c.
Proof.
  induction c as [|x c IH]; simpl; intros Hs; [constructor|].
  inversion Hs as [|? ? Hc Hx]; subst. constructor; [now apply IH|].
  rewrite Forall_forall in *. intros y Hy. apply Hx. now apply in_map.
Qed.

Lemma StronglySorted_keys_ranked
      (ws : list string) (l : Collections.counter) :
  StronglySorted
    (entry_before (fun a b => first_index ws (fst a)
                              < first_index ws (fst b))) l ->
  (forall k n, In (k, n) l -> n = frequency ws k) ->
  StronglySorted (ranks_before ws) (map fst l).
Proof.
  induction l as [|[k n] l IH]; simpl; intros Hs Hf; [constructor|].
  inversion Hs as [|? ? Hl Hk]; subst. constructor.
  - apply IH; [exact Hl|]. intros k' n' Hin. apply Hf. now right.
  - rewrite Forall_forall in *. intros k' Hin.
    apply in_map_iff in Hin as ([k2 n2] & <- & Hin).
    specialize (Hk _ Hin). unfold entry_before, ranks_before in *.
    simpl in *.
    rewrite <- (Hf k n) by now left.
    rewrite <- (Hf k2 n2) by now right. exact Hk.
Qed.

(** X23: of two key topics the more frequent comes first, and of two that
    are as frequent the one that occurs first among the cleaned words comes
    first. *)
Theorem key_topics_ties_by_first_occurrence
        (E : env) (text filename : string) (s : session) :
  exists metadata topics,
    returned (generate_basic_metadata_from_text E text filename) s
    = Some metadata
    /\ get_field metadata "semantic_data" "key_topics"
       = Some (str_list topics)
    /\ StronglySorted (ranks_before (cleaned_words text)) topics.
Proof.
  rewrite generate_returns. eexists. eexists.
  split; [reflexivity|]. split; [reflexivity|].
  rewrite key_topics_of_input. unfold Collections.most_common.
  set (ws := cleaned_words text).
  pose proof (Counter_order ws [] [] (SSorted_nil _)) as Horder.
  simpl in Horder. specialize (Horder (fun k => iff_refl _)).
  apply StronglySorted_on_keys, by_count_ranked in Horder.
  fold (Collections.Counter ws) in Horder.
  pose proof (by_count_Permutation (Collections.Counter ws)) as Hperm.
  rewrite <- (firstn_skipn 5 (Collections.by_count (Collections.Counter ws)))
    in Horder.
  apply StronglySorted_split in Horder as [Hfirst _].
  apply StronglySorted_keys_ranked; [exact Hfirst|].
  intros k n Hin. apply In_firstn_of in Hin.
  apply (Permutation_in _ Hperm) in Hin. now apply Counter_entry in Hin.
Qed.
